(** * InsureWatch API gateway: forwarding and observability pipeline

    A shallow embedding of [src/index.js] (metrics middleware,
    [forwardRequest], the route handlers) and [src/logger.js]
    ([traceContextFormat]) together with the properties the specification
    states about them.

    Conventions.
    - JavaScript objects used as string-keyed maps (header objects, winston
      [info] records, metric label sets) are [gmap string _].
    - Objects that are mutated in place and may be aliased (the header
      objects handed to [forwardRequest]) live in a heap indexed by
      locations.
    - Side effects on the telemetry handles (spans, counters, histogram,
      logger) are recorded as an append-only list of events.
    - [await] is sequential inside one request, so an asynchronous function
      is a state-and-exception computation. *)

From stdpp Require Import gmap strings list fin_maps pretty.
From Stdlib Require Import ZArith Ascii String.

#[local] Set Warnings "-register-all".

Local Open Scope string_scope.
Local Open Scope list_scope.
Local Open Scope Z_scope.

(** ** JavaScript values and built-ins used by the gateway *)

Module Js.

(** JSON documents: request and response bodies, log field values. *)
Inductive json : Type :=
  | JNull
  | JBool (b : bool)
  | JNum (n : Z)
  | JStr (s : string)
  | JObj (fields : list (string * json)).

(** [StrWhiteSpaceChar] restricted to the one-byte code points: TAB, LF, VT,
    FF, CR and SPACE. *)
Definition isWhiteSpace (c : ascii) : bool :=
  let n := N_of_ascii c in
  ((9 <=? n) && (n <=? 13))%N || (n =? 32)%N.

Fixpoint trimStart (s : string) : string :=
  match s with
  | String c r => if isWhiteSpace c then trimStart r else s
  | EmptyString => EmptyString
  end.

(** Value of a character as a digit, for radices up to 36. *)
Definition digitValue (c : ascii) : option Z :=
  let n := Z.of_N (N_of_ascii c) in
  if (48 <=? n) && (n <=? 57) then Some (n - 48)
  else if (97 <=? n) && (n <=? 122) then Some (n - 87)
  else if (65 <=? n) && (n <=? 90) then Some (n - 55)
  else None.

Definition radixDigit (R : Z) (c : ascii) : option Z :=
  match digitValue c with
  | Some d => if d <? R then Some d else None
  | None => None
  end.

(** Reads the longest prefix of radix-[R] digits; [acc] is [None] until the
    first digit has been seen. *)
Fixpoint parseDigits (R : Z) (s : string) (acc : option Z) : option Z :=
  match s with
  | EmptyString => acc
  | String c r =>
      match radixDigit R c with
      | Some d => parseDigits R r (Some (default 0 acc * R + d))
      | None => acc
      end
  end.

(** [parseInt(string)] with the radix left undefined (ECMAScript 19.2.5).
    [None] is [NaN].  The mathematical integer is kept exact; the zero,
    non-zero or [NaN] classification, the only thing [||] looks at, is the
    same as for the rounded Number. *)
Definition parseInt (input : string) : option Z :=
  let s := trimStart input in
  let '(sign, s) :=
    match s with
    | String "-"%char r => (-1, r)
    | String "+"%char r => (1, r)
    | _ => (1, s)
    end in
  let '(R, s) :=
    match s with
    | String "0"%char (String "x"%char r) => (16, r)
    | String "0"%char (String "X"%char r) => (16, r)
    | _ => (10, s)
    end in
  match parseDigits R s None with
  | Some n => Some (sign * n)
  | None => None
  end.

(** [ToString] of a property of [process.env]: a missing variable reads as
    [undefined]. *)
Definition envToString (v : option string) : string :=
  match v with
  | Some s => s
  | None => "undefined"
  end.

(** [n || d] for a Number [n] ([None] is [NaN]): [NaN] and zero are falsy. *)
Definition numOr (n : option Z) (d : Z) : Z :=
  match n with
  | Some v => if v =? 0 then d else v
  | None => d
  end.

End Js.

Export Js.

(** Number-to-string conversion of an integer ([(n).toString()], template
    literals). *)
Definition numToString (n : Z) : string := pretty n.

(** ** OpenTelemetry API as used by the gateway *)

Module Otel.

(** What [span.spanContext()] returns. *)
Record SpanContext : Type := mkSpanContext {
  traceId : string;
  spanId : string;
  traceFlags : Z;
}.

(** The span handles the gateway holds: the one [trace.getActiveSpan()]
    returns (created by the auto-instrumentation) and those it starts itself
    with [tracer.startSpan], numbered in order of creation. *)
Inductive SpanRef : Type :=
  | ActiveSpan
  | Started (n : nat).

#[global] Instance SpanRef_eq_dec : EqDecision SpanRef.
Proof. solve_decision. Defined.

Inductive AttrValue : Type :=
  | AStr (s : string)
  | ANum (n : Z)
  | ABool (b : bool).

(** A header object: header name to header value. *)
Abbreviation Headers := (gmap string string).

Definition traceHeader : string := "traceparent".

Definition hexDigit (n : Z) : string :=
  String.substring (Z.to_nat n) 1 "0123456789abcdef".

(** Modelled from the spec: the serialisation of a trace context into the
    propagation header is the OpenTelemetry propagator's, which is not part
    of the repository.  The spec asks for a single W3C-style header carrying
    [traceId], [spanId] and [traceFlags]. *)
Definition traceparent (c : SpanContext) : string :=
  "00-" +:+ traceId c +:+ "-" +:+ spanId c +:+ "-" +:+
  hexDigit ((traceFlags c / 16) mod 16) +:+ hexDigit (traceFlags c mod 16).

(** Modelled from the spec: [inject(context, outgoingHeaders)] of the Trace
    Context Carrier (the body of [propagation.inject] is not part of the
    repository): all headers are kept and the trace header is set or
    overwritten. *)
Definition inject (c : SpanContext) (h : Headers) : Headers :=
  <[traceHeader := traceparent c]> h.

(** Modelled from the spec: [propagation.inject(context.active(), carrier)]
    seen as a function of the carrier's contents, with the single trace
    header of [inject]; without an active span context nothing is written.
    The propagators the SDK installs belong to OpenTelemetry. *)
Definition propagate (active : option SpanContext) (h : Headers) : Headers :=
  match active with
  | Some c => inject c h
  | None => h
  end.

End Otel.

Export Otel.

(** ** Structured logger ([src/logger.js]) *)

Module Logger.

(** A winston [info] object. *)
Abbreviation Info := (gmap string json).

(** [traceContextFormat]: copies the identifiers of the active span, when
    there is one, into the record. *)
Definition traceContextFormat (active : option SpanContext) (info : Info) : Info :=
  match active with
  | Some spanContext =>
      <["traceFlags" := JNum (traceFlags spanContext)]>
        (<["spanId" := JStr (spanId spanContext)]>
           (<["traceId" := JStr (traceId spanContext)]> info))
  | None => info
  end.

(** [winston.format.timestamp()]. *)
Definition timestampFormat (now : string) (info : Info) : Info :=
  <["timestamp" := JStr now]> info.

(** [s || d] for a string read from [process.env]: a missing variable and
    the empty string are falsy. *)
Definition strOr (s : option string) (d : string) : string :=
  match s with
  | Some EmptyString | None => d
  | Some v => v
  end.

(** [defaultMeta] of the logger; [nodeEnv] is [process.env.NODE_ENV]. *)
Definition defaultMeta (nodeEnv : option string) : Info :=
  {[ "service" := JStr "api-gateway";
     "version" := JStr "1.0.0";
     "environment" := JStr (strOr nodeEnv "production") ]}.

(** The record winston hands to the format chain for
    [logger.<level>(message, fields)]: the caller's fields over
    [defaultMeta], then [level] and [message]. *)
Definition mkInfo (nodeEnv : option string) (level message : string) (fields : Info) : Info :=
  <["message" := JStr message]> (<["level" := JStr level]> (fields ∪ defaultMeta nodeEnv)).

(** The format chain of the logger: [combine(traceContextFormat(),
    timestamp(), json())]; the result is the record that is serialised. *)
Definition log (active : option SpanContext) (nodeEnv : option string) (now : string)
    (level message : string) (fields : Info) : Info :=
  timestampFormat now (traceContextFormat active (mkInfo nodeEnv level message fields)).

End Logger.

Export Logger.

(** ** The gateway ([src/index.js]) *)

Module Gateway.

(** *** The outbound HTTP client *)

(** What [axios(config)] resolves with. *)
Record AxiosResponse : Type := mkResponse {
  status : Z;
  data : json;
}.

(** What [axios(config)] rejects with; [response] is set when the backend
    answered. *)
Record AxiosError : Type := mkError {
  message : string;
  code : option string;
  response : option AxiosResponse;
}.

(** The [config] object passed to [axios]; [cfg_headers] is the content of
    the header object at the time of the call. *)
Record AxiosConfig : Type := mkConfig {
  cfg_method : string;
  cfg_url : string;
  cfg_data : json;
  cfg_headers : Headers;
  cfg_timeout : Z;
}.

(** What happens on the wire: the backend answers with some status and
    body, or no response arrives (timeout, connection refused, DNS or TLS
    failure, or any other exception raised while sending).  axios follows
    redirects itself: [Responded r] is the response it ends up with, so a
    3xx status here is one it does not follow (304, or no [Location]). *)
Inductive NetOutcome : Type :=
  | Responded (r : AxiosResponse)
  | TransportFailure (msg : string) (errCode : option string).

(** axios' default [validateStatus]; the call in [forwardRequest] does not
    override it. *)
Definition validateStatus (s : Z) : bool := (200 <=? s) && (s <? 300).

(** How axios settles its promise ([settle.js]): it resolves when
    [!response.status || validateStatus(response.status)], and otherwise
    rejects with an error carrying the response. *)
Definition settle (o : NetOutcome) : AxiosResponse + AxiosError :=
  match o with
  | Responded r =>
      if (status r =? 0) || validateStatus (status r) then inl r
      else inr {| message := "Request failed with status code " +:+ numToString (status r);
                  code := if status r / 100 =? 4 then Some "ERR_BAD_REQUEST"
                          else if status r / 100 =? 5 then Some "ERR_BAD_RESPONSE"
                          else None;
                  response := Some r |}
  | TransportFailure msg c => inr {| message := msg; code := c; response := None |}
  end.

(** *** Telemetry events *)

(** The label object built in the [finish] listener. *)
Record Labels : Type := mkLabels {
  l_method : string;
  l_route : string;
  l_status : string;
}.

#[global] Instance Labels_eq_dec : EqDecision Labels.
Proof. solve_decision. Defined.

Inductive Event : Type :=
  | SpanStart (sp : SpanRef) (name : string)
  | SpanSetAttribute (sp : SpanRef) (key : string) (v : AttrValue)
  | SpanRecordException (sp : SpanRef) (err : AxiosError)
  | SpanEnd (sp : SpanRef)
  | CounterAdd (counter : string) (n : Z) (labels : Labels)
  | HistogramRecord (histogram : string) (v : Z) (labels : Labels)
  | LogEmit (info : Info)
  | AxiosCall (cfg : AxiosConfig).

Definition requestCounter : string := "gateway.requests.total".
Definition errorCounter : string := "gateway.errors.total".
Definition requestDuration : string := "gateway.request.duration".

(** *** Process environment and per-request state *)

Record Services : Type := mkServices {
  claims : string;
  policy : string;
  investment : string;
  notification : string;
  chaos : string;
}.

(** What the process reads but does not write while it serves one request. *)
Record Env : Type := mkEnv {
  REQUEST_TIMEOUT_MS : option string;   (* process.env.REQUEST_TIMEOUT_MS *)
  NODE_ENV : option string;             (* process.env.NODE_ENV *)
  SERVICES : Services;
  activeContext : option SpanContext;   (* span context of trace.getActiveSpan() *)
  isoNow : string;                      (* new Date().toISOString() *)
  backend : AxiosConfig -> NetOutcome;  (* the network and the downstream services *)
}.

Abbreviation loc := positive.

(** The mutable state: the heap of header objects, the number of spans
    started so far, the telemetry emitted so far, and the Express response
    object ([res.statusCode], and the body once it has been sent). *)
Record World : Type := mkWorld {
  heap : gmap loc Headers;
  nextSpan : nat;
  events : list Event;
  statusCode : Z;
  sentBody : option json;
}.

Definition emit (e : Event) (w : World) : World :=
  {| heap := heap w; nextSpan := nextSpan w; events := events w ++ [e];
     statusCode := statusCode w; sentBody := sentBody w |}.

Definition setHeap (h : gmap loc Headers) (w : World) : World :=
  {| heap := h; nextSpan := nextSpan w; events := events w;
     statusCode := statusCode w; sentBody := sentBody w |}.

(** *** Computations that may throw *)

Inductive Outcome (A : Type) : Type :=
  | Return (a : A)
  | Throw (err : AxiosError).
Arguments Return {A} a.
Arguments Throw {A} err.

Definition M (A : Type) : Type := World -> Outcome A * World.

#[global] Instance M_ret : MRet M := fun A a w => (Return a, w).

#[global] Instance M_bind : MBind M := fun A B k m w =>
  match m w with
  | (Return a, w') => k a w'
  | (Throw err, w') => (Throw err, w')
  end.

Definition throw {A} (err : AxiosError) : M A := fun w => (Throw err, w).

(** [try { m } catch (err) { handler }]. *)
Definition tryCatch {A} (m : M A) (handler : AxiosError -> M A) : M A :=
  fun w =>
    match m w with
    | (Return a, w') => (Return a, w')
    | (Throw err, w') => handler err w'
    end.

Definition tell (e : Event) : M unit := fun w => (Return tt, emit e w).

(** *** Primitive operations *)

(** A fresh object with the given content (an object literal). *)
Definition newObject (h : Headers) : M loc := fun w =>
  let l := fresh (dom (heap w)) in
  (Return l, setHeap (<[l := h]> (heap w)) w).

Definition readObject (l : loc) : M Headers := fun w =>
  (Return (default ∅ (heap w !! l)), w).

(** [{ ...obj }]: a fresh object with the own properties of [obj]. *)
Definition objectSpread (l : loc) : M loc :=
  h ← readObject l; newObject h.

(** [propagation.inject(context.active(), carrier)]: writes into the
    carrier object itself. *)
Definition propagation_inject (active : option SpanContext) (carrier : loc) : M unit :=
  fun w => (Return tt, setHeap (alter (propagate active) carrier (heap w)) w).

(** [tracer.startSpan(name)]. *)
Definition startSpan (name : string) : M SpanRef := fun w =>
  let sp := Started (nextSpan w) in
  (Return sp,
   emit (SpanStart sp name)
     {| heap := heap w; nextSpan := S (nextSpan w); events := events w;
        statusCode := statusCode w; sentBody := sentBody w |}).

Definition span_setAttribute (sp : SpanRef) (key : string) (v : AttrValue) : M unit :=
  tell (SpanSetAttribute sp key v).
Definition span_recordException (sp : SpanRef) (err : AxiosError) : M unit :=
  tell (SpanRecordException sp err).
Definition span_end (sp : SpanRef) : M unit :=
  tell (SpanEnd sp).

(** [await axios(config)]. *)
Definition axios (E : Env) (cfg : AxiosConfig) : M AxiosResponse := fun w =>
  match settle (backend E cfg) with
  | inl r => (Return r, emit (AxiosCall cfg) w)
  | inr err => (Throw err, emit (AxiosCall cfg) w)
  end.

(** [parseInt(process.env.REQUEST_TIMEOUT_MS) || 10000]. *)
Definition requestTimeout (E : Env) : Z :=
  numOr (parseInt (envToString (REQUEST_TIMEOUT_MS E))) 10000.

(** *** [forwardRequest] *)

(** [payload] is the parameter the source calls [data]; [headers] is [None]
    when the caller leaves the argument out, and the default parameter then
    evaluates [{}]. *)
Definition forwardRequest (E : Env) (serviceUrl path method : string) (payload : json)
    (headers : option loc) : M json :=
  headers ← match headers with
            | Some l => mret l
            | None => newObject ∅
            end;
  span ← startSpan ("forward " +:+ path);
  outgoingHeaders ← objectSpread headers;
  propagation_inject (activeContext E) outgoingHeaders;;
  tryCatch
    (sent ← readObject outgoingHeaders;
     response ← axios E {| cfg_method := method;
                           cfg_url := serviceUrl +:+ path;
                           cfg_data := payload;
                           cfg_headers := sent;
                           cfg_timeout := requestTimeout E |};
     span_setAttribute span "http.status_code" (ANum (status response));;
     span_end span;;
     mret (data response))
    (fun err =>
     span_recordException span err;;
     span_setAttribute span "error" (ABool true);;
     span_end span;;
     throw err).

(** *** Express request and response *)

Record Request : Type := mkRequest {
  req_method : string;
  req_path : string;
  req_headers : Headers;
  req_body : json;
}.

(** The routes of the application; a route carries its [req.params]. *)
Inductive Route : Type :=
  | Health
  | PostClaims
  | GetClaim (id : string)
  | GetClaims
  | GetPolicy (customerId : string)
  | GetCoverage (customerId : string)
  | GetInvestments (customerId : string)
  | ChaosStatus
  | ChaosToggle.

(** [res.status(code)]: sets [res.statusCode].  Node writes the head only
    for a code from 100 to 999; the properties below that pass a backend
    status on are stated for 4xx and 5xx. *)
Definition res_status (c : Z) : M unit := fun w =>
  (Return tt, {| heap := heap w; nextSpan := nextSpan w; events := events w;
                 statusCode := c; sentBody := sentBody w |}).

(** [res.json(body)]: sends the body with the current [res.statusCode].
    This is what Express does for a request without [If-None-Match] or
    [If-Modified-Since] and a status other than 204, 205 and 304; a fresh
    conditional [GET] is answered 304, and those statuses go out without a
    body. *)
Definition res_json (b : json) : M unit := fun w =>
  (Return tt, {| heap := heap w; nextSpan := nextSpan w; events := events w;
                 statusCode := statusCode w; sentBody := Some b |}).

(** [logger.<level>(message, fields)]: the call and the record it hands to
    the format chain.  Whether the transport writes the record depends on
    [LOG_LEVEL]; the events record the calls. *)
Definition logger (E : Env) (level message : string) (fields : Info) : M unit :=
  tell (LogEmit (log (activeContext E) (NODE_ENV E) (isoNow E) level message fields)).

(** An object literal whose values may be [undefined]: such properties do
    not reach the serialised record. *)
Definition optField (k : string) (v : option string) (fields : Info) : Info :=
  match v with
  | Some s => <[k := JStr s]> fields
  | None => fields
  end.

(** [err.response?.status || 503]. *)
Definition errorStatus (err : AxiosError) : Z :=
  numOr (status <$> response err) 503.

(** *** Metrics and logging middleware *)

(** The part of the middleware that runs before [next()]. *)
Definition middleware (E : Env) (req : Request) : M unit :=
  match activeContext E with
  | Some _ =>
      span_setAttribute ActiveSpan "http.route" (AStr (req_path req));;
      span_setAttribute ActiveSpan "gateway.version" (AStr "1.0.0")
  | None => mret tt
  end;;
  logger E "info" "Incoming request"
    (optField "userAgent" (req_headers req !! "user-agent")
       {[ "method" := JStr (req_method req); "path" := JStr (req_path req) ]}).

(** The labels built by the [finish] listener. *)
Definition finishLabels (req : Request) (code : Z) : Labels :=
  {| l_method := req_method req; l_route := req_path req; l_status := numToString code |}.

(** The listener registered with [res.on('finish', ...)]; [start] is the
    value of [Date.now()] taken by the middleware and [now] the one taken by
    the listener. *)
Definition onFinish (E : Env) (req : Request) (start now : Z) : M unit :=
  fun w =>
    let duration := now - start in
    let labels := finishLabels req (statusCode w) in
    (tell (CounterAdd requestCounter 1 labels);;
     tell (HistogramRecord requestDuration duration labels);;
     (if 400 <=? statusCode w then tell (CounterAdd errorCounter 1 labels) else mret tt);;
     logger E "info" "Request completed"
       {[ "method" := JStr (req_method req); "path" := JStr (req_path req);
          "statusCode" := JNum (statusCode w); "durationMs" := JNum duration ]}) w.

(** *** Route handlers *)

Definition errorBody (msg : string) : json := JObj [("error", JStr msg)].

Definition health (E : Env) (req : Request) : M unit :=
  res_json (JObj [("status", JStr "ok"); ("service", JStr "api-gateway");
                  ("timestamp", JStr (isoNow E))]).

Definition postClaims (E : Env) (req : Request) : M unit :=
  tryCatch
    (logger E "info" "Forwarding claim submission" {[ "body" := req_body req ]};;
     result ← forwardRequest E (claims (SERVICES E)) "/claims" "POST" (req_body req) None;
     res_json result)
    (fun err =>
     logger E "error" "Claims service error"
       (optField "code" (code err) {[ "error" := JStr (message err) ]});;
     res_status (errorStatus err);;
     res_json (JObj [("error", JStr "Claims service unavailable");
                     ("details", JStr (message err))])).

Definition getClaim (E : Env) (id : string) (req : Request) : M unit :=
  tryCatch
    (result ← forwardRequest E (claims (SERVICES E)) ("/claims/" +:+ id) "GET" JNull None;
     res_json result)
    (fun err =>
     logger E "error" "Claims fetch error" {[ "error" := JStr (message err) ]};;
     res_status (errorStatus err);;
     res_json (errorBody "Claims service unavailable")).

Definition getClaims (E : Env) (req : Request) : M unit :=
  tryCatch
    (result ← forwardRequest E (claims (SERVICES E)) "/claims" "GET" JNull None;
     res_json result)
    (fun err =>
     logger E "error" "Claims list error" {[ "error" := JStr (message err) ]};;
     res_status (errorStatus err);;
     res_json (errorBody "Claims service unavailable")).

Definition getPolicy (E : Env) (customerId : string) (req : Request) : M unit :=
  tryCatch
    (result ← forwardRequest E (policy (SERVICES E)) ("/policy/" +:+ customerId) "GET" JNull None;
     res_json result)
    (fun err =>
     logger E "error" "Policy service error" {[ "error" := JStr (message err) ]};;
     res_status (errorStatus err);;
     res_json (errorBody "Policy service unavailable")).

Definition getCoverage (E : Env) (customerId : string) (req : Request) : M unit :=
  tryCatch
    (result ← forwardRequest E (policy (SERVICES E))
                ("/policy/" +:+ customerId +:+ "/coverage") "GET" JNull None;
     res_json result)
    (fun err =>
     logger E "error" "Coverage fetch error" {[ "error" := JStr (message err) ]};;
     res_status (errorStatus err);;
     res_json (errorBody "Policy service unavailable")).

Definition getInvestments (E : Env) (customerId : string) (req : Request) : M unit :=
  tryCatch
    (result ← forwardRequest E (investment (SERVICES E))
                ("/investments/" +:+ customerId) "GET" JNull None;
     res_json result)
    (fun err =>
     logger E "error" "Investment service error" {[ "error" := JStr (message err) ]};;
     res_status (errorStatus err);;
     res_json (errorBody "Investment service unavailable")).

Definition chaosStatus (E : Env) (req : Request) : M unit :=
  tryCatch
    (result ← forwardRequest E (chaos (SERVICES E)) "/chaos/status" "GET" JNull None;
     res_json result)
    (fun err =>
     res_status 503;;
     res_json (errorBody "Chaos controller unavailable")).

Definition chaosToggle (E : Env) (req : Request) : M unit :=
  tryCatch
    (result ← forwardRequest E (chaos (SERVICES E)) "/chaos/toggle" "POST" (req_body req) None;
     logger E "warn" "Chaos toggle activated" {[ "toggle" := req_body req ]};;
     res_json result)
    (fun err =>
     res_status 503;;
     res_json (errorBody "Chaos controller unavailable")).

Definition handler (E : Env) (r : Route) : Request -> M unit :=
  match r with
  | Health => health E
  | PostClaims => postClaims E
  | GetClaim id => getClaim E id
  | GetClaims => getClaims E
  | GetPolicy customerId => getPolicy E customerId
  | GetCoverage customerId => getCoverage E customerId
  | GetInvestments customerId => getInvestments E customerId
  | ChaosStatus => chaosStatus E
  | ChaosToggle => chaosToggle E
  end.

(** The backend, path, method and payload a route forwards to. *)
Definition forwardsTo (E : Env) (r : Route) (req : Request)
    : option (string * string * string * json) :=
  match r with
  | Health => None
  | PostClaims => Some (claims (SERVICES E), "/claims", "POST", req_body req)
  | GetClaim id => Some (claims (SERVICES E), "/claims/" +:+ id, "GET", JNull)
  | GetClaims => Some (claims (SERVICES E), "/claims", "GET", JNull)
  | GetPolicy c => Some (policy (SERVICES E), "/policy/" +:+ c, "GET", JNull)
  | GetCoverage c => Some (policy (SERVICES E), "/policy/" +:+ c +:+ "/coverage", "GET", JNull)
  | GetInvestments c => Some (investment (SERVICES E), "/investments/" +:+ c, "GET", JNull)
  | ChaosStatus => Some (chaos (SERVICES E), "/chaos/status", "GET", JNull)
  | ChaosToggle => Some (chaos (SERVICES E), "/chaos/toggle", "POST", req_body req)
  end.

(** *** One inbound request *)

(** Express hands every request a fresh response object: status 200,
    nothing sent. *)
Definition newResponse (w : World) : World :=
  {| heap := heap w; nextSpan := nextSpan w; events := events w;
     statusCode := 200; sentBody := None |}.

(** The life of one request: the middleware, the route's handler, and the
    [finish] listener once the response has been sent.  [start] and [now]
    are the two readings of [Date.now()]. *)
Definition serve (E : Env) (r : Route) (req : Request) (start now : Z) : M unit :=
  fun w =>
    (middleware E req;;
     handler E r req;;
     onFinish E req start now) (newResponse w).

(** *** The application *)

(** What [express.json()] makes of the body of a request: [req.body], or a
    parse error. *)
Inductive BodyParse : Type :=
  | Parsed (body : json)
  | Unparseable.

(** A request as it arrives, before any middleware has run. *)
Record Inbound : Type := mkInbound {
  in_method : string;
  in_path : string;
  in_headers : Headers;
  in_body : BodyParse;
}.

(** [app.use(cors())], line 11: the [cors] package answers an [OPTIONS]
    request itself, with status 204 and no body, and does not call
    [next()]. *)
Definition corsPreflight : M unit := res_status 204.

(** [app.use(express.json())], line 12: a body that cannot be parsed is
    passed to [next(err)], Express's error handler answers 400, and the
    middleware registered after it is skipped.  The page the error handler
    writes is not represented. *)
Definition jsonParseError : M unit := res_status 400.

(** One inbound request through the stack in the order of registration:
    [cors()], [express.json()], the metrics middleware (line 37), then the
    handler [h] Express dispatches to, which is one of the route handlers or
    Express's own 404 answer, and the [finish] listener. *)
Definition app (E : Env) (h : Request -> M unit) (i : Inbound) (start now : Z) : M unit :=
  fun w =>
    if String.eqb (in_method i) "OPTIONS" then corsPreflight (newResponse w)
    else match in_body i with
         | Unparseable => jsonParseError (newResponse w)
         | Parsed body =>
             let req := {| req_method := in_method i; req_path := in_path i;
                           req_headers := in_headers i; req_body := body |} in
             (middleware E req;;
              h req;;
              onFinish E req start now) (newResponse w)
         end.

End Gateway.

Export Gateway.

(** * Derived descriptions

    Closed forms of what the code above computes, used to state the
    properties. *)

(** ** What one call of [forwardRequest] does *)

Section ForwardRequest.

Variable E : Env.
Variables (serviceUrl path method : string) (payload : json) (headers : option loc).

(** The content of the header object the caller passes. *)
Definition callerHeaders (w : World) : Headers :=
  match headers with
  | Some l => default ∅ (heap w !! l)
  | None => ∅
  end.

(** The configuration [axios] is called with, [h] being the content of the
    caller's header object. *)
Definition forwardConfig (h : Headers) : AxiosConfig :=
  {| cfg_method := method;
     cfg_url := serviceUrl +:+ path;
     cfg_data := payload;
     cfg_headers := propagate (activeContext E) h;
     cfg_timeout := requestTimeout E |}.

(** The heap once the outgoing header object has been built. *)
Definition forwardHeap (w : World) : gmap loc Headers :=
  let σ := match headers with
           | Some _ => heap w
           | None => <[fresh (dom (heap w)) := ∅]> (heap w)
           end in
  <[fresh (dom σ) := propagate (activeContext E) (callerHeaders w)]> σ.

(** The span the call starts. *)
Definition forwardSpan (w : World) : SpanRef := Started (nextSpan w).

(** The telemetry of a call, by the way the outbound promise settles. *)
Definition forwardEvents (w : World) (o : AxiosResponse + AxiosError) : list Event :=
  let span := forwardSpan w in
  match o with
  | inl response =>
      [SpanStart span ("forward " +:+ path);
       AxiosCall (forwardConfig (callerHeaders w));
       SpanSetAttribute span "http.status_code" (ANum (status response));
       SpanEnd span]
  | inr err =>
      [SpanStart span ("forward " +:+ path);
       AxiosCall (forwardConfig (callerHeaders w));
       SpanRecordException span err;
       SpanSetAttribute span "error" (ABool true);
       SpanEnd span]
  end.

Definition forwardResult (o : AxiosResponse + AxiosError) : Outcome json :=
  match o with
  | inl response => Return (data response)
  | inr err => Throw err
  end.

End ForwardRequest.

(** ** What one inbound request does *)

Definition isMetric (e : Event) : bool :=
  match e with
  | CounterAdd _ _ _ | HistogramRecord _ _ _ => true
  | _ => false
  end.

(** The metric samples among a list of events, in order of emission. *)
Definition metricEvents (evs : list Event) : list Event := List.filter isMetric evs.

(** The samples the [finish] listener emits for a response with status
    [code]. *)
Definition finishMetrics (req : Request) (start now code : Z) : list Event :=
  let labels := finishLabels req code in
  CounterAdd requestCounter 1 labels
  :: HistogramRecord requestDuration (now - start) labels
  :: (if 400 <=? code then [CounterAdd errorCounter 1 labels] else []).

(** The configuration of the forward a route makes; handlers pass no
    header object. *)
Definition routeConfig (E : Env) (r : Route) (req : Request) : option AxiosConfig :=
  match forwardsTo E r req with
  | Some (serviceUrl, path, method, payload) =>
      Some (forwardConfig E serviceUrl path method payload ∅)
  | None => None
  end.

Definition isChaos (r : Route) : bool :=
  match r with
  | ChaosStatus | ChaosToggle => true
  | _ => false
  end.

(** Status and body a handler answers with when its forward throws. *)
Definition failureStatus (r : Route) (err : AxiosError) : Z :=
  if isChaos r then 503 else errorStatus err.

Definition failureBody (r : Route) (err : AxiosError) : json :=
  match r with
  | PostClaims => JObj [("error", JStr "Claims service unavailable");
                        ("details", JStr (message err))]
  | GetClaim _ | GetClaims => errorBody "Claims service unavailable"
  | GetPolicy _ | GetCoverage _ => errorBody "Policy service unavailable"
  | GetInvestments _ => errorBody "Investment service unavailable"
  | _ => errorBody "Chaos controller unavailable"
  end.

(** Status and body of the response of a request, by route and by the way
    the forward settles. *)
Definition responseOf (E : Env) (r : Route) (req : Request) : Z * json :=
  match routeConfig E r req with
  | None => (200, JObj [("status", JStr "ok"); ("service", JStr "api-gateway");
                        ("timestamp", JStr (isoNow E))])
  | Some cfg =>
      match settle (backend E cfg) with
      | inl resp => (200, data resp)
      | inr err => (failureStatus r err, failureBody r err)
      end
  end.

(** Everything the [finish] listener emits. *)
Definition finishEvents (E : Env) (req : Request) (start now code : Z) : list Event :=
  finishMetrics req start now code
  ++ [LogEmit (log (activeContext E) (NODE_ENV E) (isoNow E) "info" "Request completed"
                 {[ "method" := JStr (req_method req); "path" := JStr (req_path req);
                    "statusCode" := JNum code; "durationMs" := JNum (now - start) ]})].

(** A handler that answers without touching the meters: it returns normally
    and emits no metric sample.  Only the [finish] listener of [index.js]
    calls the counters and the histogram. *)
Definition answersQuietly (h : M unit) : Prop :=
  ∀ w, ∃ evs w',
    h w = (Return tt, w')
    ∧ events w' = events w ++ evs
    ∧ metricEvents evs = [].

(** ** Counting events *)

Definition isSpanEnd (sp : SpanRef) (e : Event) : bool :=
  match e with
  | SpanEnd sp' => bool_decide (sp' = sp)
  | _ => false
  end.

(** How many times [sp.end()] is called in a run. *)
Definition spanEnds (sp : SpanRef) (evs : list Event) : nat :=
  List.length (List.filter (isSpanEnd sp) evs).

Definition isCounterAdd (counter : string) (e : Event) : bool :=
  match e with
  | CounterAdd c _ _ => bool_decide (c = counter)
  | _ => false
  end.

Definition isHistogramRecord (histogram : string) (e : Event) : bool :=
  match e with
  | HistogramRecord h _ _ => bool_decide (h = histogram)
  | _ => false
  end.

(** How many times [counter.add] is called in a run. *)
Definition counterAdds (counter : string) (evs : list Event) : nat :=
  List.length (List.filter (isCounterAdd counter) evs).

(** How many times [histogram.record] is called in a run. *)
Definition histogramRecords (histogram : string) (evs : list Event) : nat :=
  List.length (List.filter (isHistogramRecord histogram) evs).

(** The configurations of the outbound calls of a run. *)
Definition axiosCalls (evs : list Event) : list AxiosConfig :=
  omap (fun e => match e with AxiosCall cfg => Some cfg | _ => None end) evs.

(** The records logged in a run. *)
Definition logRecords (evs : list Event) : list Info :=
  omap (fun e => match e with LogEmit info => Some info | _ => None end) evs.

(** A record agrees with the trace context that was active when it was
    created: it carries that context's identifiers, or none when no context
    was active. *)
Definition traceFieldsOk (active : option SpanContext) (record : Info) : Prop :=
  match active with
  | Some ctx =>
      record !! "traceId" = Some (JStr (traceId ctx))
      ∧ record !! "spanId" = Some (JStr (spanId ctx))
      ∧ record !! "traceFlags" = Some (JNum (traceFlags ctx))
  | None =>
      record !! "traceId" = None ∧ record !! "spanId" = None
      ∧ record !! "traceFlags" = None
  end.

(** The same, on events: only log records are constrained. *)
Definition eventOk (active : option SpanContext) (e : Event) : Prop :=
  match e with
  | LogEmit record => traceFieldsOk active record
  | _ => True
  end.

(** ** Outbound calls, spans and error logs of a run *)

(** The spans started and the spans ended in a run, in order. *)
Definition startedSpans (evs : list Event) : list SpanRef :=
  omap (fun e => match e with SpanStart sp _ => Some sp | _ => None end) evs.
Definition endedSpans (evs : list Event) : list SpanRef :=
  omap (fun e => match e with SpanEnd sp => Some sp | _ => None end) evs.

(** The attributes set on the span [trace.getActiveSpan()] returns. *)
Definition rootAttributes (evs : list Event) : list (string * AttrValue) :=
  omap (fun e => match e with
                 | SpanSetAttribute ActiveSpan key v => Some (key, v)
                 | _ => None
                 end) evs.

Definition hasLevel (level : string) (record : Info) : bool :=
  match record !! "level" with
  | Some (JStr l) => String.eqb l level
  | _ => false
  end.

(** The records logged at a level in a run. *)
Definition logsAt (level : string) (evs : list Event) : list Info :=
  List.filter (hasLevel level) (logRecords evs).

(** The record of the [logger.error] call of a route's [catch] block; the
    chaos routes have none. *)
Definition errorLogs (E : Env) (r : Route) (err : AxiosError) : list Info :=
  let record message fields :=
    [log (activeContext E) (NODE_ENV E) (isoNow E) "error" message fields] in
  match r with
  | PostClaims =>
      record "Claims service error"
        (optField "code" (code err) {[ "error" := JStr (message err) ]})
  | GetClaim _ => record "Claims fetch error" {[ "error" := JStr (message err) ]}
  | GetClaims => record "Claims list error" {[ "error" := JStr (message err) ]}
  | GetPolicy _ => record "Policy service error" {[ "error" := JStr (message err) ]}
  | GetCoverage _ => record "Coverage fetch error" {[ "error" := JStr (message err) ]}
  | GetInvestments _ =>
      record "Investment service error" {[ "error" := JStr (message err) ]}
  | _ => []
  end.

(** What a run did besides metrics: outbound calls, spans started, spans
    ended, attributes put on the active span, records logged at level
    [error]. *)
Definition traceSummary (evs : list Event)
    : list AxiosConfig * list SpanRef * list SpanRef * list (string * AttrValue)
      * list Info :=
  (axiosCalls evs, startedSpans evs, endedSpans evs, rootAttributes evs,
   logsAt "error" evs).

Definition summaryApp
    (a b : list AxiosConfig * list SpanRef * list SpanRef * list (string * AttrValue)
           * list Info) :=
  let '(c1, s1, e1, r1, l1) := a in
  let '(c2, s2, e2, r2, l2) := b in
  (c1 ++ c2, s1 ++ s2, e1 ++ e2, r1 ++ r2, l1 ++ l2).

(** The summary of a whole request started in a world whose next span
    number is [n]. *)
Definition requestSummary (E : Env) (r : Route) (req : Request) (n : nat) :=
  match routeConfig E r req with
  | Some cfg =>
      ([cfg], [Started n], [Started n],
       match activeContext E with
       | Some _ => [("http.route", AStr (req_path req)); ("gateway.version", AStr "1.0.0")]
       | None => []
       end,
       match settle (backend E cfg) with
       | inl _ => []
       | inr err => errorLogs E r err
       end)
  | None =>
      ([], [], [],
       match activeContext E with
       | Some _ => [("http.route", AStr (req_path req)); ("gateway.version", AStr "1.0.0")]
       | None => []
       end, [])
  end.

(** The record of the completion log of a request. *)
Definition completionRecord (E : Env) (req : Request) (start now code : Z) : Info :=
  log (activeContext E) (NODE_ENV E) (isoNow E) "info" "Request completed"
    {[ "method" := JStr (req_method req); "path" := JStr (req_path req);
       "statusCode" := JNum code; "durationMs" := JNum (now - start) ]}.

(** ** Sample inputs *)

Module Sample.

Definition services : Services :=
  {| claims := "http://localhost:3001"; policy := "http://localhost:8080";
     investment := "http://localhost:3002"; notification := "http://localhost:3003";
     chaos := "http://localhost:3004" |}.

Definition context : SpanContext :=
  mkSpanContext "0af7651916cd43dd8448eb211c80319c" "b7ad6b7169203331" 1.

(** An environment whose backends all settle as [o]. *)
Definition env (timeout : option string) (active : option SpanContext) (o : NetOutcome) : Env :=
  {| REQUEST_TIMEOUT_MS := timeout; NODE_ENV := None; SERVICES := services;
     activeContext := active; isoNow := "2024-05-01T10:00:00.000Z";
     backend := fun _ => o |}.

(** A world with one header object, at location 1. *)
Definition world : World :=
  {| heap := {[ 1%positive := {[ "accept" := "application/json" ]} ]};
     nextSpan := 0; events := []; statusCode := 200; sentBody := None |}.

Definition created : AxiosResponse :=
  mkResponse 201 (JObj [("claimId", JStr "C9")]).
Definition notFound : AxiosResponse :=
  mkResponse 404 (JObj [("error", JStr "not found")]).
Definition refused : NetOutcome :=
  TransportFailure "connect ECONNREFUSED 127.0.0.1:8080" (Some "ECONNREFUSED").

Definition postClaimsReq : Request :=
  {| req_method := "POST"; req_path := "/api/claims";
     req_headers := {[ "user-agent" := "curl/8.5.0" ]};
     req_body := JObj [("policyId", JStr "P1"); ("amount", JNum 500)] |}.

Definition getReq (path : string) : Request :=
  {| req_method := "GET"; req_path := path; req_headers := ∅; req_body := JNull |}.

End Sample.

(** * Properties *)

(** ** Built-ins on sample inputs *)

Example parseInt_abc : parseInt "abc" = None.
Proof. reflexivity. Qed.
Example parseInt_zero : parseInt "0" = Some 0.
Proof. reflexivity. Qed.
Example parseInt_5000ms : parseInt "  5000ms" = Some 5000.
Proof. reflexivity. Qed.
Example parseInt_hex : parseInt "0x1F" = Some 31.
Proof. reflexivity. Qed.
Example parseInt_neg : parseInt "-42" = Some (-42).
Proof. reflexivity. Qed.
Example parseInt_undefined : parseInt (envToString None) = None.
Proof. reflexivity. Qed.

Example numToString_404 : numToString 404 = "404".
Proof. reflexivity. Qed.

Example traceparent_sample :
  traceparent (mkSpanContext "0af7651916cd43dd8448eb211c80319c" "b7ad6b7169203331" 1)
  = "00-0af7651916cd43dd8448eb211c80319c-b7ad6b7169203331-01".
Proof. reflexivity. Qed.

(** ** Running the code symbolically *)

Lemma forwardRequest_run (E : Env) (serviceUrl path method : string) (payload : json)
    (headers : option loc) (w : World) :
  let o := settle (backend E (forwardConfig E serviceUrl path method payload
                                (callerHeaders headers w))) in
  forwardRequest E serviceUrl path method payload headers w =
    (forwardResult o,
     {| heap := forwardHeap E headers w;
        nextSpan := S (nextSpan w);
        events := events w ++ forwardEvents E serviceUrl path method payload headers w o;
        statusCode := statusCode w;
        sentBody := sentBody w |}).
Proof.
  cbv zeta. destruct w as [σ n evs c b].
  unfold forwardRequest, forwardEvents, forwardHeap, forwardSpan, forwardConfig, callerHeaders.
  destruct headers as [l|];
    cbv [mbind M_bind mret M_ret tryCatch objectSpread readObject newObject
         propagation_inject startSpan span_setAttribute span_recordException
         span_end axios throw tell emit setHeap heap nextSpan events statusCode sentBody].
  all: rewrite !alter_insert_eq, !lookup_insert_eq; cbn [default from_option id].
  all: destruct (settle _) as [r|err];
    cbn [forwardResult]; rewrite <- ?app_assoc; reflexivity.
Qed.

Lemma onFinish_run (E : Env) (req : Request) (start now : Z) (w : World) :
  onFinish E req start now w =
    (Return tt,
     {| heap := heap w; nextSpan := nextSpan w;
        events := events w ++ finishEvents E req start now (statusCode w);
        statusCode := statusCode w; sentBody := sentBody w |}).
Proof.
  destruct w as [σ n evs c b].
  unfold onFinish, finishEvents, finishMetrics.
  cbn [statusCode]. destruct (400 <=? c);
    cbv [mbind M_bind mret M_ret logger tell emit heap nextSpan events statusCode sentBody];
    rewrite <- ?app_assoc; reflexivity.
Qed.

Lemma finishEvents_metrics (E : Env) (req : Request) (start now code : Z) :
  metricEvents (finishEvents E req start now code) = finishMetrics req start now code.
Proof.
  unfold finishEvents, finishMetrics, metricEvents.
  destruct (400 <=? code); reflexivity.
Qed.

(** *** Log records *)

Lemma defaultMeta_no_trace_fields (nodeEnv : option string) (k : string) :
  k ∈ ["traceId"; "spanId"; "traceFlags"] → defaultMeta nodeEnv !! k = None.
Proof.
  intros Hk. unfold defaultMeta.
  repeat (apply elem_of_cons in Hk as [->|Hk]; [reflexivity|]).
  by apply elem_of_nil in Hk.
Qed.

Lemma mkInfo_no_trace_fields (nodeEnv : option string) (level message : string)
    (fields : Info) (k : string) :
  k ∈ ["traceId"; "spanId"; "traceFlags"] →
  fields !! k = None → mkInfo nodeEnv level message fields !! k = None.
Proof.
  intros Hk Hf. unfold mkInfo.
  assert (k ≠ "message" ∧ k ≠ "level") as [Hm Hl].
  { repeat (apply elem_of_cons in Hk as [->|Hk]; [split; discriminate|]).
    by apply elem_of_nil in Hk. }
  rewrite !lookup_insert_ne by done.
  apply lookup_union_None. split; [exact Hf|].
  by apply defaultMeta_no_trace_fields.
Qed.

Lemma log_traceFieldsOk (active : option SpanContext) (nodeEnv : option string)
    (now level message : string) (fields : Info) :
  fields !! "traceId" = None → fields !! "spanId" = None → fields !! "traceFlags" = None →
  traceFieldsOk active (log active nodeEnv now level message fields).
Proof.
  intros Ht Hs Hf.
  unfold traceFieldsOk, log, timestampFormat, traceContextFormat.
  destruct active as [ctx|].
  - repeat split.
    + rewrite !lookup_insert_ne by done. apply lookup_insert_eq.
    + rewrite !lookup_insert_ne by done. apply lookup_insert_eq.
    + rewrite lookup_insert_ne by done. apply lookup_insert_eq.
  - rewrite !lookup_insert_ne by done.
    repeat split; apply mkInfo_no_trace_fields; try done; set_solver.
Qed.

(** *** Events of the stages of a request *)

Lemma metricEvents_app (a b : list Event) :
  metricEvents (a ++ b) = metricEvents a ++ metricEvents b.
Proof. apply List.filter_app. Qed.

Lemma forwardEvents_metrics (E : Env) (serviceUrl path method : string) (payload : json)
    (headers : option loc) (w : World) (o : AxiosResponse + AxiosError) :
  metricEvents (forwardEvents E serviceUrl path method payload headers w o) = [].
Proof. destruct o; reflexivity. Qed.

Lemma forwardEvents_logs (E : Env) (serviceUrl path method : string) (payload : json)
    (headers : option loc) (w : World) (o : AxiosResponse + AxiosError) active :
  Forall (eventOk active) (forwardEvents E serviceUrl path method payload headers w o).
Proof. destruct o; repeat constructor. Qed.

Lemma logRecords_ok (active : option SpanContext) (evs : list Event) :
  Forall (eventOk active) evs → Forall (traceFieldsOk active) (logRecords evs).
Proof.
  induction 1 as [|e evs He _ IH]; [constructor|].
  destruct e; cbn; auto.
Qed.

Lemma logEvent_ok (active : option SpanContext) (nodeEnv : option string)
    (now level message : string) (fields : Info) :
  fields !! "traceId" = None → fields !! "spanId" = None → fields !! "traceFlags" = None →
  eventOk active (LogEmit (log active nodeEnv now level message fields)).
Proof. apply log_traceFieldsOk. Qed.

(** Closes [fields !! k = None] for the field sets the gateway logs. *)
Ltac no_trace_field :=
  repeat match goal with
         | |- context [optField _ ?o _] => destruct o; cbn [optField]
         end;
  rewrite ?lookup_insert_ne by discriminate;
  apply lookup_singleton_ne; discriminate.

(** Unfolds the monadic plumbing of a handler, leaving [forwardRequest],
    [log] and [onFinish] folded. *)
Ltac run_request :=
  cbv [mbind M_bind mret M_ret tryCatch res_status res_json logger tell emit
       span_setAttribute throw heap nextSpan events statusCode sentBody
       forwardResult].

Lemma middleware_run (E : Env) (req : Request) (w : World) :
  ∃ evs,
    middleware E req w =
      (Return tt, {| heap := heap w; nextSpan := nextSpan w; events := events w ++ evs;
                     statusCode := statusCode w; sentBody := sentBody w |})
    ∧ metricEvents evs = []
    ∧ Forall (eventOk (activeContext E)) evs.
Proof.
  destruct w as [σ n evs c b]. unfold middleware.
  destruct (activeContext E) as [ctx|] eqn:Hctx; run_request; rewrite <- Hctx.
  - eexists; split; [rewrite <- !app_assoc; reflexivity|].
    split; [reflexivity|].
    repeat (apply Forall_cons; split); [exact I|exact I| |apply Forall_nil_2].
    apply logEvent_ok; no_trace_field.
  - eexists; split; [reflexivity|].
    split; [reflexivity|].
    repeat (apply Forall_cons; split); [|apply Forall_nil_2].
    apply logEvent_ok; no_trace_field.
Qed.

(** Closes [Forall (eventOk _) evs] for an explicit list of events. *)
Ltac events_ok :=
  rewrite ?Forall_app; repeat split;
  try apply forwardEvents_logs;
  repeat (apply Forall_cons; split);
  try apply Forall_nil_2; try exact I;
  try (apply logEvent_ok; no_trace_field).

Lemma handler_run (E : Env) (r : Route) (req : Request) (w : World) :
  statusCode w = 200 →
  ∃ evs σ n,
    handler E r req w =
      (Return tt, {| heap := σ; nextSpan := n; events := events w ++ evs;
                     statusCode := (responseOf E r req).1;
                     sentBody := Some (responseOf E r req).2 |})
    ∧ metricEvents evs = []
    ∧ Forall (eventOk (activeContext E)) evs.
Proof.
  destruct w as [σ n evs c b]. cbn [statusCode]. intros ->.
  unfold responseOf, routeConfig.
  destruct r; cbn [handler forwardsTo];
    unfold health, postClaims, getClaim, getClaims, getPolicy, getCoverage,
      getInvestments, chaosStatus, chaosToggle; run_request.
  { exists [], σ, n. rewrite app_nil_r. repeat split. constructor. }
  all: rewrite ?forwardRequest_run; cbn [callerHeaders].
  all: try destruct (settle _) as [resp|err]; run_request.
  all: eexists _, _, _; split; [rewrite <- ?app_assoc; reflexivity|].
  all: split; [rewrite ?metricEvents_app, ?forwardEvents_metrics; reflexivity|].
  all: events_ok.
Qed.

Lemma finishEvents_logs (E : Env) (req : Request) (start now code : Z) :
  Forall (eventOk (activeContext E)) (finishEvents E req start now code).
Proof.
  unfold finishEvents, finishMetrics.
  destruct (400 <=? code); cbn [app]; events_ok.
Qed.

Lemma serve_run (E : Env) (r : Route) (req : Request) (start now : Z) (w : World) :
  let w' := (serve E r req start now w).2 in
  ∃ news,
    events w' = events w ++ news
    ∧ metricEvents news = finishMetrics req start now (statusCode w')
    ∧ statusCode w' = (responseOf E r req).1
    ∧ sentBody w' = Some (responseOf E r req).2
    ∧ Forall (traceFieldsOk (activeContext E)) (logRecords news).
Proof.
  cbv zeta. unfold serve, mbind, M_bind.
  destruct (middleware_run E req (newResponse w)) as (mev & -> & Hmm & Hml).
  match goal with
  | |- context [handler E r req ?w1] =>
      destruct (handler_run E r req w1 eq_refl) as (hev & σ & n & -> & Hhm & Hhl)
  end.
  rewrite onFinish_run. cbn [snd events statusCode sentBody newResponse].
  exists (mev ++ hev ++ finishEvents E req start now (responseOf E r req).1).
  split; [by rewrite <- !app_assoc|].
  split; [|split; [reflexivity|split; [reflexivity|]]].
  - rewrite !metricEvents_app, Hmm, Hhm. apply finishEvents_metrics.
  - apply logRecords_ok. rewrite !Forall_app.
    split; [exact Hml|]. split; [exact Hhl|]. apply finishEvents_logs.
Qed.

Lemma forwardRequest_outcome (E : Env) (serviceUrl path method : string) (payload : json)
    (headers : option loc) (w : World) :
  (forwardRequest E serviceUrl path method payload headers w).1 =
  forwardResult (settle (backend E (forwardConfig E serviceUrl path method payload
                                      (callerHeaders headers w)))).
Proof. rewrite forwardRequest_run. reflexivity. Qed.

Lemma forwardRequest_events (E : Env) (serviceUrl path method : string) (payload : json)
    (headers : option loc) (w : World) :
  events (forwardRequest E serviceUrl path method payload headers w).2 =
  events w ++ forwardEvents E serviceUrl path method payload headers w
                (settle (backend E (forwardConfig E serviceUrl path method payload
                                      (callerHeaders headers w)))).
Proof. rewrite forwardRequest_run. reflexivity. Qed.

(** ** The span of a forward call (C4) *)

(** C4. Whatever way the outbound call settles (a response the client
    accepts, a response it rejects, a transport failure or any other
    exception), the events of one execution of [forwardRequest] begin with
    the start of its span, end with the end of that span, and contain exactly
    one call of [end()] on it. *)
Theorem forwardRequest_ends_span_once (E : Env) (serviceUrl path method : string)
    (payload : json) (headers : option loc) (w : World) :
  let span := forwardSpan w in
  ∃ news,
    events (forwardRequest E serviceUrl path method payload headers w).2 = events w ++ news
    ∧ head news = Some (SpanStart span ("forward " +:+ path))
    ∧ last news = Some (SpanEnd span)
    ∧ spanEnds span news = 1%nat.
Proof.
  cbv zeta. eexists. split; [apply forwardRequest_events|].
  unfold forwardEvents, spanEnds.
  destruct (settle _) as [response|err]; cbn [head last List.filter isSpanEnd];
    rewrite bool_decide_eq_true_2 by reflexivity; auto.
Qed.

(** ** The timeout of the outbound call (C9) *)

(** C9. When [REQUEST_TIMEOUT_MS] is unset, or set to a string for which
    [parseInt] gives [NaN] or zero, a call of [forwardRequest] makes exactly
    one outbound call, with a timeout of 10000 ms, and settles the way that
    call does. *)
Theorem forwardRequest_default_timeout (E : Env) (serviceUrl path method : string)
    (payload : json) (headers : option loc) (w : World) :
  (REQUEST_TIMEOUT_MS E = None
   ∨ ∃ s, REQUEST_TIMEOUT_MS E = Some s ∧ (parseInt s = None ∨ parseInt s = Some 0)) →
  ∃ news cfg,
    events (forwardRequest E serviceUrl path method payload headers w).2 = events w ++ news
    ∧ axiosCalls news = [cfg]
    ∧ cfg_timeout cfg = 10000
    ∧ (forwardRequest E serviceUrl path method payload headers w).1
      = forwardResult (settle (backend E cfg)).
Proof.
  intros Henv.
  assert (Ht : requestTimeout E = 10000).
  { unfold requestTimeout.
    destruct Henv as [->|(s & -> & [Hs|Hs])]; cbn [envToString].
    - reflexivity.
    - rewrite Hs. reflexivity.
    - rewrite Hs. reflexivity. }
  eexists _, _. split; [apply forwardRequest_events|].
  split; [|split; [|apply forwardRequest_outcome]].
  - unfold forwardEvents. destruct (settle _); reflexivity.
  - exact Ht.
Qed.

Lemma forwardRequest_default_timeout_witness :
  parseInt "abc" = None
  ∧ ∃ news cfg,
      events (forwardRequest (Sample.env (Some "abc") None (Responded Sample.created))
                "http://localhost:3001" "/claims" "GET" JNull None Sample.world).2
      = events Sample.world ++ news
      ∧ axiosCalls news = [cfg]
      ∧ cfg_timeout cfg = 10000
      ∧ (forwardRequest (Sample.env (Some "abc") None (Responded Sample.created))
           "http://localhost:3001" "/claims" "GET" JNull None Sample.world).1
        = forwardResult
            (settle (backend (Sample.env (Some "abc") None (Responded Sample.created)) cfg)).
Proof.
  split; [reflexivity|].
  apply (forwardRequest_default_timeout
           (Sample.env (Some "abc") None (Responded Sample.created))).
  right. exists "abc". split; [reflexivity|]. left. reflexivity.
Defined.

Example requestTimeout_unset :
  requestTimeout (Sample.env None None Sample.refused) = 10000.
Proof. reflexivity. Qed.
Example requestTimeout_abc :
  requestTimeout (Sample.env (Some "abc") None Sample.refused) = 10000.
Proof. reflexivity. Qed.
Example requestTimeout_zero :
  requestTimeout (Sample.env (Some "0") None Sample.refused) = 10000.
Proof. reflexivity. Qed.
Example requestTimeout_2500 :
  requestTimeout (Sample.env (Some "2500") None Sample.refused) = 2500.
Proof. reflexivity. Qed.

(** ** The caller's header object (C10) *)

Lemma forwardHeap_lookup (E : Env) (headers : option loc) (w : World) (l : loc) :
  is_Some (heap w !! l) → forwardHeap E headers w !! l = heap w !! l.
Proof.
  intros Hl. unfold forwardHeap.
  assert (Hfresh : ∀ σ : gmap loc Headers, is_Some (σ !! l) → fresh (dom σ) ≠ l).
  { intros σ Hσ Heq. apply (is_fresh (dom σ)). rewrite Heq. by apply elem_of_dom. }
  destruct headers as [l0|].
  - rewrite lookup_insert_ne; [reflexivity|]. by apply Hfresh.
  - rewrite lookup_insert_ne.
    + rewrite lookup_insert_ne; [reflexivity|]. by apply Hfresh.
    + apply Hfresh. rewrite lookup_insert_ne; [done|]. by apply Hfresh.
Qed.

(** C10. The header object a caller passes to [forwardRequest] has the same
    content after the call as before it; the trace header goes into the copy
    that is sent, which is a different object. *)
Theorem forwardRequest_keeps_caller_headers (E : Env) (serviceUrl path method : string)
    (payload : json) (l : loc) (h : Headers) (w : World) :
  heap w !! l = Some h →
  let w' := (forwardRequest E serviceUrl path method payload (Some l) w).2 in
  heap w' !! l = Some h
  ∧ ∃ news, events w' = events w ++ news
            ∧ cfg_headers <$> axiosCalls news = [propagate (activeContext E) h].
Proof.
  intros Hl. cbv zeta. rewrite forwardRequest_run. cbn [snd heap events].
  split.
  - rewrite forwardHeap_lookup by (rewrite Hl; eauto). exact Hl.
  - eexists. split; [reflexivity|].
    unfold forwardEvents, callerHeaders. rewrite Hl.
    destruct (settle _); reflexivity.
Qed.

Lemma forwardRequest_keeps_caller_headers_witness :
  let E := Sample.env None (Some Sample.context) (Responded Sample.created) in
  let w' := (forwardRequest E "http://localhost:3001" "/claims" "GET" JNull
               (Some 1%positive) Sample.world).2 in
  heap w' !! 1%positive = Some {[ "accept" := "application/json" ]}
  ∧ ∃ news, events w' = events Sample.world ++ news
            ∧ cfg_headers <$> axiosCalls news
              = [propagate (Some Sample.context) {[ "accept" := "application/json" ]}].
Proof.
  apply (forwardRequest_keeps_caller_headers
           (Sample.env None (Some Sample.context) (Responded Sample.created))
           "http://localhost:3001" "/claims" "GET" JNull 1%positive
           {[ "accept" := "application/json" ]} Sample.world).
  reflexivity.
Defined.

(** ** Trace context injection (C7) *)

(** C7. Injecting a trace context twice gives the same header map as
    injecting it once; after an injection the trace header carries the
    context, and every other header is as it was. *)
Theorem inject_idempotent (h : Headers) (ctx : SpanContext) :
  inject ctx (inject ctx h) = inject ctx h
  ∧ inject ctx h !! traceHeader = Some (traceparent ctx)
  ∧ ∀ k, k ≠ traceHeader → inject ctx h !! k = h !! k.
Proof.
  unfold inject. split; [apply insert_insert_eq|].
  split; [apply lookup_insert_eq|].
  intros k Hk. by apply lookup_insert_ne.
Qed.

Lemma inject_idempotent_witness :
  let h : Headers := {[ "accept" := "application/json"; "traceparent" := "00-old-old-00" ]} in
  inject Sample.context (inject Sample.context h) = inject Sample.context h
  ∧ inject Sample.context h !! traceHeader = Some (traceparent Sample.context)
  ∧ inject Sample.context h !! "accept" = Some "application/json".
Proof.
  pose proof (inject_idempotent
                {[ "accept" := "application/json"; "traceparent" := "00-old-old-00" ]}
                Sample.context) as (Hidem & Hset & Hother).
  cbv zeta. split; [exact Hidem|]. split; [exact Hset|].
  rewrite (Hother "accept"); [reflexivity|]. unfold traceHeader. discriminate.
Defined.

(** The same holds for the composite [forwardRequest] uses, which writes
    nothing when no span context is active. *)
Lemma propagate_idempotent (active : option SpanContext) (h : Headers) :
  propagate active (propagate active h) = propagate active h.
Proof. destruct active; [apply insert_insert_eq | reflexivity]. Qed.

(** ** Log records and the active trace context (C8) *)

(** C8. A log call returns normally and emits one record.  With an active
    trace context the record carries that context's [traceId], [spanId] and
    [traceFlags], whatever the caller passed; without one, a record whose
    caller did not pass these three fields does not have them.  No log call
    of the gateway passes them: every record logged while a request is served
    carries the identifiers of the active context, or none of the three
    fields when no context is active. *)
Theorem logger_trace_correlation (E : Env) (level message : string) (fields : Info)
    (w : World) :
  let record := log (activeContext E) (NODE_ENV E) (isoNow E) level message fields in
  logger E level message fields w = (Return tt, emit (LogEmit record) w)
  ∧ match activeContext E with
    | Some ctx =>
        record !! "traceId" = Some (JStr (traceId ctx))
        ∧ record !! "spanId" = Some (JStr (spanId ctx))
        ∧ record !! "traceFlags" = Some (JNum (traceFlags ctx))
    | None =>
        fields !! "traceId" = None → fields !! "spanId" = None →
        fields !! "traceFlags" = None →
        record !! "traceId" = None ∧ record !! "spanId" = None
        ∧ record !! "traceFlags" = None
    end
  ∧ ∀ (r : Route) (req : Request) (start now : Z),
      ∃ news,
        events (serve E r req start now w).2 = events w ++ news
        ∧ Forall (traceFieldsOk (activeContext E)) (logRecords news).
Proof.
  cbv zeta. split; [reflexivity|]. split.
  - unfold log, timestampFormat, traceContextFormat.
    destruct (activeContext E) as [ctx|].
    + repeat split.
      * rewrite !lookup_insert_ne by discriminate. apply lookup_insert_eq.
      * rewrite !lookup_insert_ne by discriminate. apply lookup_insert_eq.
      * rewrite lookup_insert_ne by discriminate. apply lookup_insert_eq.
    + intros Ht Hs Hf.
      rewrite !lookup_insert_ne by discriminate.
      repeat split; apply mkInfo_no_trace_fields; try done; set_solver.
  - intros r req start now.
    destruct (serve_run E r req start now w) as (news & Hev & _ & _ & _ & Hlogs).
    exists news. split; [exact Hev|exact Hlogs].
Qed.

Lemma logger_trace_correlation_witness :
  let fields : Info := {[ "method" := JStr "GET"; "path" := JStr "/health" ]} in
  let E := Sample.env None None Sample.refused in
  let record := log None None (isoNow E) "info" "Incoming request" fields in
  record !! "traceId" = None ∧ record !! "spanId" = None ∧ record !! "traceFlags" = None.
Proof.
  cbv zeta.
  apply (logger_trace_correlation (Sample.env None None Sample.refused) "info"
           "Incoming request" {[ "method" := JStr "GET"; "path" := JStr "/health" ]}
           Sample.world); reflexivity.
Defined.

(** [traceContextFormat] only ever adds or overwrites: with no active span it
    returns the record it was given. *)
Lemma traceContextFormat_inactive (info : Info) : traceContextFormat None info = info.
Proof. reflexivity. Qed.

Example log_with_context :
  let record :=
    log (Some Sample.context) None "2024-05-01T10:00:00.000Z" "info" "Request completed"
      {[ "statusCode" := JNum 200 ]} in
  map (fun k => record !! k)
    ["service"; "level"; "message"; "statusCode"; "traceId"; "spanId"; "traceFlags";
     "timestamp"; "userAgent"]
  = [Some (JStr "api-gateway"); Some (JStr "info"); Some (JStr "Request completed");
     Some (JNum 200); Some (JStr "0af7651916cd43dd8448eb211c80319c");
     Some (JStr "b7ad6b7169203331"); Some (JNum 1);
     Some (JStr "2024-05-01T10:00:00.000Z"); None].
Proof. vm_compute. reflexivity. Qed.

(** ** Request metrics (C5, C6) *)

Lemma counterAdds_metricEvents (counter : string) (evs : list Event) :
  counterAdds counter evs = counterAdds counter (metricEvents evs).
Proof.
  unfold counterAdds, metricEvents.
  induction evs as [|e evs IH]; [reflexivity|].
  destruct e; cbn [List.filter isMetric isCounterAdd]; try exact IH.
  destruct (bool_decide _); cbn [List.length]; congruence.
Qed.

Lemma histogramRecords_metricEvents (histogram : string) (evs : list Event) :
  histogramRecords histogram evs = histogramRecords histogram (metricEvents evs).
Proof.
  unfold histogramRecords, metricEvents.
  induction evs as [|e evs IH]; [reflexivity|].
  destruct e; cbn [List.filter isMetric isHistogramRecord]; try exact IH.
  destruct (bool_decide _); cbn [List.length]; congruence.
Qed.

Lemma finishMetrics_counts (req : Request) (start now code : Z) :
  counterAdds requestCounter (finishMetrics req start now code) = 1%nat
  ∧ histogramRecords requestDuration (finishMetrics req start now code) = 1%nat
  ∧ counterAdds errorCounter (finishMetrics req start now code)
    = (if 400 <=? code then 1%nat else 0%nat).
Proof. unfold finishMetrics. destruct (400 <=? code); repeat split. Qed.

(** The metrics middleware around any handler that leaves the meters
    alone. *)
Lemma pipeline_metrics (E : Env) (req : Request) (start now : Z) (h : M unit) (w : World) :
  answersQuietly h →
  let w' := ((middleware E req;; h;; onFinish E req start now) (newResponse w)).2 in
  ∃ news,
    events w' = events w ++ news
    ∧ metricEvents news = finishMetrics req start now (statusCode w').
Proof.
  intros Hh. cbv zeta. unfold mbind, M_bind.
  destruct (middleware_run E req (newResponse w)) as (mev & -> & Hmm & _).
  match goal with
  | |- context [h ?w1] => destruct (Hh w1) as (hev & w2 & -> & Hev2 & Hhm)
  end.
  rewrite onFinish_run. cbn [snd events statusCode] in *.
  exists (mev ++ hev ++ finishEvents E req start now (statusCode w2)).
  split; [by rewrite Hev2, <- !app_assoc|].
  rewrite !metricEvents_app, Hmm, Hhm. apply finishEvents_metrics.
Qed.

(** Each of the nine route handlers answers without touching the meters. *)
Lemma handler_quiet (E : Env) (r : Route) (req : Request) :
  answersQuietly (handler E r req).
Proof.
  intros w. destruct w as [σ n evs c b].
  destruct r; cbn [handler];
    unfold health, postClaims, getClaim, getClaims, getPolicy, getCoverage,
      getInvestments, chaosStatus, chaosToggle; run_request.
  { exists [], {| heap := σ; nextSpan := n; events := evs; statusCode := c;
                 sentBody := Some (JObj [("status", JStr "ok");
                                         ("service", JStr "api-gateway");
                                         ("timestamp", JStr (isoNow E))]) |}.
    cbn [events]. rewrite app_nil_r. repeat split. }
  all: rewrite ?forwardRequest_run; cbn [callerHeaders].
  all: try destruct (settle _) as [resp|err]; run_request.
  all: eexists _, _; split; [reflexivity|]; cbn [events].
  all: split; [rewrite <- ?app_assoc; reflexivity|].
  all: rewrite ?metricEvents_app, ?forwardEvents_metrics; reflexivity.
Qed.

Lemma app_reaches_middleware (E : Env) (h : Request → M unit) (i : Inbound) (body : json)
    (start now : Z) (w : World) :
  in_method i ≠ "OPTIONS" →
  in_body i = Parsed body →
  let req := {| req_method := in_method i; req_path := in_path i;
                req_headers := in_headers i; req_body := body |} in
  app E h i start now w
  = (middleware E req;; h req;; onFinish E req start now) (newResponse w).
Proof.
  intros Hm Hb. unfold app. rewrite Hb.
  by rewrite (proj2 (String.eqb_neq _ _) Hm).
Qed.

(** C5, as stated, fails: [cors()] is registered before the metrics
    middleware and answers a preflight request itself, so that request
    completes, with status 204, without any metric sample. *)
Lemma preflight_emits_no_metrics :
  let E := Sample.env None None (Responded Sample.created) in
  let i := {| in_method := "OPTIONS"; in_path := "/api/claims"; in_headers := ∅;
              in_body := Parsed (JObj []) |} in
  let w' := (app E (handler E PostClaims) i 1000 1042 Sample.world).2 in
  statusCode w' = 204
  ∧ metricEvents (events w') = []
  ∧ counterAdds requestCounter (events w') ≠ 1%nat.
Proof. vm_compute. repeat split. discriminate. Qed.

(** C5, amended. For every inbound request that reaches the metrics
    middleware, that is one that [cors()] does not answer as a preflight and
    whose body [express.json()] can parse, and whichever handler answers it
    (the nine route handlers do so without touching the meters), the metric
    samples are, in this order and nothing else: one increment of the request
    counter, one observation of the duration histogram and, when the status
    is at least 400, one increment of the error counter; all of them carry
    the one label set built from the request's method and path and the status
    of the response. *)
Theorem metrics_once_through_middleware (E : Env) (h : Request → M unit) (i : Inbound)
    (body : json) (start now : Z) (w : World) :
  in_method i ≠ "OPTIONS" →
  in_body i = Parsed body →
  (∀ req, answersQuietly (h req)) →
  let w' := (app E h i start now w).2 in
  let labels := {| l_method := in_method i; l_route := in_path i;
                   l_status := numToString (statusCode w') |} in
  (∃ news,
     events w' = events w ++ news
     ∧ metricEvents news
       = CounterAdd requestCounter 1 labels
         :: HistogramRecord requestDuration (now - start) labels
         :: (if 400 <=? statusCode w' then [CounterAdd errorCounter 1 labels] else [])
     ∧ counterAdds requestCounter news = 1%nat
     ∧ histogramRecords requestDuration news = 1%nat)
  ∧ ∀ r req, answersQuietly (handler E r req).
Proof.
  intros Hm Hb Hh. cbv zeta. split; [|intros r req; apply handler_quiet].
  rewrite (app_reaches_middleware E h i body start now w Hm Hb). cbv zeta.
  match goal with
  | |- context [h ?req] =>
      destruct (pipeline_metrics E req start now (h req) w (Hh req)) as (news & Hev & Hmet)
  end.
  exists news. split; [exact Hev|]. split; [exact Hmet|].
  rewrite counterAdds_metricEvents, histogramRecords_metricEvents, Hmet.
  split; apply finishMetrics_counts.
Qed.

Lemma metrics_once_through_middleware_witness :
  let E := Sample.env None None (Responded Sample.notFound) in
  let i := {| in_method := "GET"; in_path := "/api/claims/UNKNOWN"; in_headers := ∅;
              in_body := Parsed (JObj []) |} in
  let w' := (app E (handler E (GetClaim "UNKNOWN")) i 1000 1042 Sample.world).2 in
  let labels := mkLabels "GET" "/api/claims/UNKNOWN" (numToString (statusCode w')) in
  ∃ news,
    events w' = events Sample.world ++ news
    ∧ metricEvents news
      = CounterAdd requestCounter 1 labels
        :: HistogramRecord requestDuration (1042 - 1000) labels
        :: (if 400 <=? statusCode w' then [CounterAdd errorCounter 1 labels] else [])
    ∧ counterAdds requestCounter news = 1%nat
    ∧ histogramRecords requestDuration news = 1%nat.
Proof.
  apply (metrics_once_through_middleware
           (Sample.env None None (Responded Sample.notFound))
           (handler (Sample.env None None (Responded Sample.notFound)) (GetClaim "UNKNOWN"))
           {| in_method := "GET"; in_path := "/api/claims/UNKNOWN"; in_headers := ∅;
              in_body := Parsed (JObj []) |} (JObj []) 1000 1042 Sample.world).
  - discriminate.
  - reflexivity.
  - intros req. apply handler_quiet.
Defined.




(** X15. The listener itself does the same for any response it is attached
    to, whichever handler produced it: its samples are the request counter,
    the duration and, from status 400 on, the error counter, once each. *)
Lemma onFinish_error_counter (E : Env) (req : Request) (start now : Z) (w : World) :
  ∃ news,
    events (onFinish E req start now w).2 = events w ++ news
    ∧ metricEvents news = finishMetrics req start now (statusCode w)
    ∧ counterAdds errorCounter news = (if 400 <=? statusCode w then 1%nat else 0%nat).
Proof.
  rewrite onFinish_run. eexists. split; [reflexivity|].
  split; [apply finishEvents_metrics|].
  rewrite counterAdds_metricEvents, finishEvents_metrics.
  apply finishMetrics_counts.
Qed.

(** ** A successful forward (C2) *)

(** C2, as stated, fails: for [POST /api/claims] with a backend that answers
    [201 {"claimId":"C9"}] the gateway answers 200, and the samples carry the
    status label ["200"]. *)
Lemma post_claims_201_answers_200 :
  let E := Sample.env None None (Responded Sample.created) in
  let w' := (serve E PostClaims Sample.postClaimsReq 1000 1042 Sample.world).2 in
  statusCode w' ≠ 201
  ∧ statusCode w' = 200
  ∧ sentBody w' = Some (JObj [("claimId", JStr "C9")])
  ∧ metricEvents (events w')
    = [CounterAdd requestCounter 1 (mkLabels "POST" "/api/claims" "200");
       HistogramRecord requestDuration 42 (mkLabels "POST" "/api/claims" "200")].
Proof. vm_compute. repeat split; discriminate. Qed.

(** C2, amended. When the forward of [POST /api/claims] is answered with
    [201 {"claimId":"C9"}], the gateway answers 200 with that body; the
    request counter is incremented once and one duration is observed, both
    with the status label ["200"], and the error counter is not
    incremented. *)
Theorem post_claims_created (E : Env) (req : Request) (start now : Z) (w : World) :
  backend E (forwardConfig E (claims (SERVICES E)) "/claims" "POST" (req_body req) ∅)
  = Responded (mkResponse 201 (JObj [("claimId", JStr "C9")])) →
  let w' := (serve E PostClaims req start now w).2 in
  let labels := {| l_method := req_method req; l_route := req_path req;
                   l_status := "200" |} in
  statusCode w' = 200
  ∧ sentBody w' = Some (JObj [("claimId", JStr "C9")])
  ∧ ∃ news,
      events w' = events w ++ news
      ∧ metricEvents news
        = [CounterAdd requestCounter 1 labels;
           HistogramRecord requestDuration (now - start) labels]
      ∧ counterAdds errorCounter news = 0%nat.
Proof.
  intros Hb. cbv zeta.
  destruct (serve_run E PostClaims req start now w) as (news & Hev & Hm & Hs & Hbody & _).
  unfold responseOf, routeConfig in Hs, Hbody. cbn [forwardsTo] in Hs, Hbody.
  rewrite Hb in Hs, Hbody. cbn in Hs, Hbody.
  rewrite Hs in Hm.
  split; [exact Hs|]. split; [exact Hbody|].
  exists news. split; [exact Hev|]. split; [exact Hm|].
  rewrite counterAdds_metricEvents, Hm. reflexivity.
Qed.

Lemma post_claims_created_witness :
  let E := Sample.env None (Some Sample.context) (Responded Sample.created) in
  let w' := (serve E PostClaims Sample.postClaimsReq 1000 1042 Sample.world).2 in
  statusCode w' = 200
  ∧ sentBody w' = Some (JObj [("claimId", JStr "C9")])
  ∧ ∃ news,
      events w' = events Sample.world ++ news
      ∧ metricEvents news
        = [CounterAdd requestCounter 1 (mkLabels "POST" "/api/claims" "200");
           HistogramRecord requestDuration (1042 - 1000)
             (mkLabels "POST" "/api/claims" "200")]
      ∧ counterAdds errorCounter news = 0%nat.
Proof.
  apply (post_claims_created
           (Sample.env None (Some Sample.context) (Responded Sample.created))
           Sample.postClaimsReq 1000 1042 Sample.world).
  reflexivity.
Defined.

(** ** A failed forward (C3) *)

(** X14. [forwardRequest] throws exactly when the outbound promise rejects,
    and what it throws is the error the promise rejected with. *)
Lemma forwardRequest_throws (E : Env) (serviceUrl path method : string) (payload : json)
    (headers : option loc) (w : World) (err : AxiosError) :
  (forwardRequest E serviceUrl path method payload headers w).1 = Throw err
  ↔ settle (backend E (forwardConfig E serviceUrl path method payload
                         (callerHeaders headers w))) = inr err.
Proof.
  rewrite forwardRequest_outcome.
  destruct (settle _) as [resp|err']; cbn [forwardResult];
    split; intros H; try discriminate; congruence.
Qed.




(** ** Backend responses and the error path (C1) *)

(** C1, as stated, fails: when the Claims backend answers
    [GET /claims/UNKNOWN] with [404 {"error":"not found"}], [forwardRequest]
    throws instead of returning that body, its span is marked errored, and
    the gateway answers 404 with a body of its own. *)
Lemma claim_404_body_replaced :
  let E := Sample.env None None (Responded Sample.notFound) in
  let run := forwardRequest E (claims (SERVICES E)) "/claims/UNKNOWN" "GET" JNull None
               Sample.world in
  let w' := (serve E (GetClaim "UNKNOWN") (Sample.getReq "/api/claims/UNKNOWN") 1000 1042
               Sample.world).2 in
  run.1 ≠ Return (data Sample.notFound)
  ∧ SpanSetAttribute (Started 0) "error" (ABool true) ∈ events run.2
  ∧ statusCode w' = 404
  ∧ sentBody w' = Some (JObj [("error", JStr "Claims service unavailable")])
  ∧ sentBody w' ≠ Some (data Sample.notFound).
Proof.
  cbv zeta. split; [vm_compute; discriminate|].
  split.
  - rewrite forwardRequest_events. apply list_elem_of_In.
    vm_compute. tauto.
  - vm_compute. repeat split; discriminate.
Qed.

(** C1, amended. When the backend answers with a 2xx status,
    [forwardRequest] records the numeric status on its span, ends the span
    without marking it errored and returns the response body unchanged.  A
    response with a 4xx or 5xx status is rejected by the HTTP client and takes
    the error path: the exception is recorded, the span is marked errored and
    ended, and the error, which carries the response, is thrown again; a
    transport failure does the same with an error that carries no response.
    In particular, when the Claims backend answers [GET /api/claims/:id] with
    404 and a JSON body, the gateway answers 404 with the body
    [{"error":"Claims service unavailable"}]. *)
Theorem forwardRequest_by_status :
  (∀ (E : Env) (serviceUrl path method : string) (payload : json)
     (headers : option loc) (w : World) (r : AxiosResponse),
     let cfg := forwardConfig E serviceUrl path method payload (callerHeaders headers w) in
     let run := forwardRequest E serviceUrl path method payload headers w in
     let span := forwardSpan w in
     backend E cfg = Responded r →
     (200 ≤ status r < 300 →
      run.1 = Return (data r)
      ∧ events run.2
        = events w
          ++ [SpanStart span ("forward " +:+ path);
              AxiosCall cfg;
              SpanSetAttribute span "http.status_code" (ANum (status r));
              SpanEnd span])
     ∧ (400 ≤ status r < 600 →
        ∃ err,
          response err = Some r
          ∧ run.1 = Throw err
          ∧ events run.2
            = events w
              ++ [SpanStart span ("forward " +:+ path);
                  AxiosCall cfg;
                  SpanRecordException span err;
                  SpanSetAttribute span "error" (ABool true);
                  SpanEnd span]))
  ∧ (∀ (E : Env) (serviceUrl path method : string) (payload : json)
       (headers : option loc) (w : World) (msg : string) (errCode : option string),
       let cfg := forwardConfig E serviceUrl path method payload (callerHeaders headers w) in
       let run := forwardRequest E serviceUrl path method payload headers w in
       let span := forwardSpan w in
       let err := {| message := msg; code := errCode; response := None |} in
       backend E cfg = TransportFailure msg errCode →
       run.1 = Throw err
       ∧ events run.2
         = events w
           ++ [SpanStart span ("forward " +:+ path);
               AxiosCall cfg;
               SpanRecordException span err;
               SpanSetAttribute span "error" (ABool true);
               SpanEnd span])
  ∧ (∀ (E : Env) (id : string) (req : Request) (start now : Z) (w : World) (body : json),
       backend E (forwardConfig E (claims (SERVICES E)) ("/claims/" +:+ id) "GET" JNull ∅)
       = Responded (mkResponse 404 body) →
       let w' := (serve E (GetClaim id) req start now w).2 in
       statusCode w' = 404
       ∧ sentBody w' = Some (JObj [("error", JStr "Claims service unavailable")])).
Proof.
  split; [|split].
  - intros E serviceUrl path method payload headers w r cfg run span Hb.
    subst run. rewrite forwardRequest_run. cbn [fst snd events]. fold cfg.
    rewrite Hb. unfold settle, validateStatus. split; intros Hs.
    + replace (200 <=? status r) with true by (symmetry; apply Z.leb_le; lia).
      replace (status r <? 300) with true by (symmetry; apply Z.ltb_lt; lia).
      rewrite orb_true_r. cbn [forwardResult forwardEvents]. split; reflexivity.
    + replace (status r =? 0) with false by (symmetry; apply Z.eqb_neq; lia).
      replace (status r <? 300) with false by (symmetry; apply Z.ltb_ge; lia).
      rewrite andb_false_r. cbn [orb forwardResult forwardEvents].
      eexists. split; [|split; reflexivity]. reflexivity.
  - intros E serviceUrl path method payload headers w msg errCode cfg run span err Hb.
    subst run. rewrite forwardRequest_run. cbn [fst snd events]. fold cfg.
    rewrite Hb. split; reflexivity.
  - intros E id req start now w body Hb. cbv zeta.
    destruct (serve_run E (GetClaim id) req start now w) as (news & _ & _ & Hs & Hbody & _).
    unfold responseOf, routeConfig in Hs, Hbody. cbn [forwardsTo] in Hs, Hbody.
    rewrite Hb in Hs, Hbody. split; [exact Hs|exact Hbody].
Qed.

Lemma forwardRequest_by_status_witness :
  let E := Sample.env None (Some Sample.context) (Responded Sample.created) in
  let E' := Sample.env None None (Responded Sample.notFound) in
  let run := forwardRequest E "http://localhost:3001" "/claims" "POST"
               (req_body Sample.postClaimsReq) (Some 1%positive) Sample.world in
  let run' := forwardRequest E' "http://localhost:3001" "/claims/UNKNOWN" "GET" JNull None
                Sample.world in
  let w' := (serve E' (GetClaim "UNKNOWN") (Sample.getReq "/api/claims/UNKNOWN") 1000 1042
               Sample.world).2 in
  run.1 = Return (JObj [("claimId", JStr "C9")])
  ∧ (∃ err, response err = Some Sample.notFound ∧ run'.1 = Throw err)
  ∧ statusCode w' = 404
  ∧ sentBody w' = Some (JObj [("error", JStr "Claims service unavailable")]).
Proof.
  cbv zeta. split; [|split].
  - apply (proj1 (proj1 forwardRequest_by_status
             (Sample.env None (Some Sample.context) (Responded Sample.created))
             "http://localhost:3001" "/claims" "POST" (req_body Sample.postClaimsReq)
             (Some 1%positive) Sample.world Sample.created eq_refl)).
    cbn; lia.
  - destruct (proj2 (proj1 forwardRequest_by_status
                (Sample.env None None (Responded Sample.notFound))
                "http://localhost:3001" "/claims/UNKNOWN" "GET" JNull None
                Sample.world Sample.notFound eq_refl))
      as (err & Hresp & Hthrow & _); [cbn; lia|].
    exists err. split; [exact Hresp|exact Hthrow].
  - apply (proj2 (proj2 forwardRequest_by_status)
             (Sample.env None None (Responded Sample.notFound)) "UNKNOWN"
             (Sample.getReq "/api/claims/UNKNOWN") 1000 1042 Sample.world
             (JObj [("error", JStr "not found")]) eq_refl).
Defined.

(** * Further properties of the code *)

(** ** Summaries of the stages of a request *)

Lemma traceSummary_app (a b : list Event) :
  traceSummary (a ++ b) = summaryApp (traceSummary a) (traceSummary b).
Proof.
  unfold traceSummary, summaryApp, axiosCalls, startedSpans, endedSpans, rootAttributes,
    logsAt, logRecords.
  by rewrite !omap_app, List.filter_app.
Qed.

Lemma log_level (active : option SpanContext) (nodeEnv : option string)
    (now level message : string) (fields : Info) :
  log active nodeEnv now level message fields !! "level" = Some (JStr level).
Proof.
  unfold log, timestampFormat, traceContextFormat, mkInfo.
  destruct active; rewrite !lookup_insert_ne by discriminate; apply lookup_insert_eq.
Qed.

Lemma traceSummary_log (active : option SpanContext) (nodeEnv : option string)
    (now level message : string) (fields : Info) :
  traceSummary [LogEmit (log active nodeEnv now level message fields)]
  = ([], [], [], [],
     if String.eqb level "error" then [log active nodeEnv now level message fields]
     else []).
Proof.
  unfold traceSummary, logsAt. cbn [logRecords omap list_omap List.filter].
  unfold hasLevel. rewrite log_level. reflexivity.
Qed.

Lemma traceSummary_forwardEvents (E : Env) (serviceUrl path method : string)
    (payload : json) (headers : option loc) (w : World) (o : AxiosResponse + AxiosError) :
  traceSummary (forwardEvents E serviceUrl path method payload headers w o)
  = ([forwardConfig E serviceUrl path method payload (callerHeaders headers w)],
     [forwardSpan w], [forwardSpan w], [], []).
Proof. destruct o; reflexivity. Qed.

Lemma traceSummary_finishEvents (E : Env) (req : Request) (start now code : Z) :
  traceSummary (finishEvents E req start now code) = ([], [], [], [], []).
Proof.
  unfold finishEvents. rewrite traceSummary_app, traceSummary_log.
  unfold finishMetrics. destruct (400 <=? code); reflexivity.
Qed.

Ltac summarise :=
  rewrite ?traceSummary_app, ?traceSummary_log, ?traceSummary_forwardEvents;
  reflexivity.

Lemma middleware_trace (E : Env) (req : Request) (w : World) :
  ∃ evs,
    middleware E req w =
      (Return tt, {| heap := heap w; nextSpan := nextSpan w; events := events w ++ evs;
                     statusCode := statusCode w; sentBody := sentBody w |})
    ∧ traceSummary evs
      = ([], [], [],
         match activeContext E with
         | Some _ => [("http.route", AStr (req_path req));
                      ("gateway.version", AStr "1.0.0")]
         | None => []
         end, []).
Proof.
  destruct w as [σ n evs c b]. unfold middleware.
  destruct (activeContext E) as [ctx|]; run_request.
  - eexists; split; [rewrite <- !app_assoc; reflexivity|]. summarise.
  - eexists; split; [reflexivity|]. summarise.
Qed.

Lemma handler_trace (E : Env) (r : Route) (req : Request) (w : World) :
  ∃ evs σ n c b,
    handler E r req w =
      (Return tt, {| heap := σ; nextSpan := n; events := events w ++ evs;
                     statusCode := c; sentBody := b |})
    ∧ traceSummary evs
      = match routeConfig E r req with
        | Some cfg =>
            ([cfg], [Started (nextSpan w)], [Started (nextSpan w)], [],
             match settle (backend E cfg) with
             | inl _ => []
             | inr err => errorLogs E r err
             end)
        | None => ([], [], [], [], [])
        end.
Proof.
  destruct w as [σ n evs c b]. unfold routeConfig. cbn [nextSpan].
  destruct r; cbn [handler forwardsTo];
    unfold health, postClaims, getClaim, getClaims, getPolicy, getCoverage,
      getInvestments, chaosStatus, chaosToggle; run_request.
  { exists [], σ, n, c. eexists. rewrite app_nil_r. split; reflexivity. }
  all: rewrite ?forwardRequest_run; cbn [callerHeaders].
  all: try destruct (settle _) as [resp|err]; run_request.
  all: eexists _, _, _, _, _; split; [rewrite <- ?app_assoc; reflexivity|].
  all: unfold forwardSpan; cbn [nextSpan errorLogs]; summarise.
Qed.

Lemma serve_trace (E : Env) (r : Route) (req : Request) (start now : Z) (w : World) :
  let w' := (serve E r req start now w).2 in
  ∃ news,
    events w' = events w ++ news
    ∧ traceSummary news = requestSummary E r req (nextSpan w)
    ∧ last news = Some (LogEmit (completionRecord E req start now (statusCode w'))).
Proof.
  cbv zeta. unfold serve, mbind, M_bind.
  destruct (middleware_trace E req (newResponse w)) as (mev & -> & Hm).
  match goal with
  | |- context [handler E r req ?w1] =>
      destruct (handler_trace E r req w1) as (hev & σ & n & c & b & -> & Hh)
  end.
  rewrite onFinish_run. cbn [snd events statusCode sentBody newResponse nextSpan] in *.
  exists (mev ++ hev ++ finishEvents E req start now c).
  split; [by rewrite <- !app_assoc|]. split.
  - rewrite !traceSummary_app, Hm, Hh, traceSummary_finishEvents.
    unfold requestSummary.
    destruct (routeConfig E r req) as [cfg|]; cbn [summaryApp app];
      rewrite ?app_nil_r; reflexivity.
  - unfold finishEvents. rewrite !app_assoc. apply last_snoc.
Qed.

(** A field the caller passes reaches the record unless its name is one of
    the six the logger writes itself. *)
Lemma log_field (active : option SpanContext) (nodeEnv : option string)
    (now level message : string) (fields : Info) (k : string) (v : json) :
  k ∉ ["timestamp"; "traceId"; "spanId"; "traceFlags"; "message"; "level"] →
  fields !! k = Some v →
  log active nodeEnv now level message fields !! k = Some v.
Proof.
  intros Hk Hf.
  assert (k ≠ "timestamp" ∧ k ≠ "traceId" ∧ k ≠ "spanId" ∧ k ≠ "traceFlags"
          ∧ k ≠ "message" ∧ k ≠ "level") as (? & ? & ? & ? & ? & ?).
  { repeat split; intros ->; apply Hk; set_solver. }
  unfold log, timestampFormat, traceContextFormat, mkInfo.
  destruct active; rewrite !lookup_insert_ne by done; by apply lookup_union_Some_l.
Qed.

(** ** One forward per route (X1) *)

(** X1. Serving a request makes exactly one outbound call on each of the
    eight forwarding routes and none on [/health]; the call goes to the
    route's base URL followed by its path, with the route's method and
    payload, an empty header object plus the trace header, and the configured
    timeout. *)
Theorem route_forwards_once (E : Env) (r : Route) (req : Request) (start now : Z)
    (w : World) :
  ∃ news,
    events (serve E r req start now w).2 = events w ++ news
    ∧ axiosCalls news
      = match forwardsTo E r req with
        | Some (serviceUrl, path, method, payload) =>
            [{| cfg_method := method;
                cfg_url := serviceUrl +:+ path;
                cfg_data := payload;
                cfg_headers := propagate (activeContext E) ∅;
                cfg_timeout := requestTimeout E |}]
        | None => []
        end.
Proof.
  destruct (serve_trace E r req start now w) as (news & Hev & Hs & _).
  exists news. split; [exact Hev|].
  unfold traceSummary, requestSummary, routeConfig in Hs.
  destruct (forwardsTo E r req) as [[[[serviceUrl path] method] payload]|];
    injection Hs as -> _ _ _ _; reflexivity.
Qed.

(** ** Spans of a request (X3, X4) *)

(** X3. In the events of one request the spans ended are exactly the spans
    started, in the same order: one span per outbound call, none on
    [/health]; the gateway neither starts nor ends the span of the
    auto-instrumentation. *)
Theorem request_spans_balanced (E : Env) (r : Route) (req : Request) (start now : Z)
    (w : World) :
  ∃ news,
    events (serve E r req start now w).2 = events w ++ news
    ∧ endedSpans news = startedSpans news
    ∧ startedSpans news = (fun _ => Started (nextSpan w)) <$> axiosCalls news
    ∧ ActiveSpan ∉ endedSpans news.
Proof.
  destruct (serve_trace E r req start now w) as (news & Hev & Hs & _).
  exists news. split; [exact Hev|].
  unfold traceSummary, requestSummary in Hs.
  destruct (routeConfig E r req) as [cfg|];
    injection Hs as Hc Hst Hen Hr Hl; rewrite Hc, Hst, Hen; repeat split;
    rewrite ?elem_of_cons, ?elem_of_nil; intuition discriminate.
Qed.

(** X4. When a span is active the middleware sets [http.route] to the
    request path and [gateway.version] to ["1.0.0"] on it, and nothing else
    in the request touches its attributes; without an active span no
    attribute is set. *)
Theorem active_span_attributes (E : Env) (r : Route) (req : Request) (start now : Z)
    (w : World) :
  ∃ news,
    events (serve E r req start now w).2 = events w ++ news
    ∧ rootAttributes news
      = match activeContext E with
        | Some _ => [("http.route", AStr (req_path req));
                     ("gateway.version", AStr "1.0.0")]
        | None => []
        end.
Proof.
  destruct (serve_trace E r req start now w) as (news & Hev & Hs & _).
  exists news. split; [exact Hev|].
  unfold traceSummary, requestSummary in Hs.
  destruct (routeConfig E r req) as [cfg|]; injection Hs as _ _ _ -> _; reflexivity.
Qed.

(** ** Responses by outcome (X5 to X7) *)








(** ** Logging of a failed forward (X9) *)

Lemma errorLogs_content (E : Env) (r : Route) (err : AxiosError) :
  if isChaos r then errorLogs E r err = []
  else r = Health
       ∨ ∃ record, errorLogs E r err = [record]
                   ∧ record !! "level" = Some (JStr "error")
                   ∧ record !! "error" = Some (JStr (message err)).
Proof.
  destruct r; cbn [isChaos errorLogs]; try reflexivity; [by left|right..];
    (eexists; split; [reflexivity|]; split; [apply log_level|]);
    (apply log_field; [rewrite !elem_of_cons, elem_of_nil; intuition discriminate|]);
    try (by apply lookup_singleton_eq).
  unfold optField. destruct (code err).
  - rewrite lookup_insert_ne by discriminate. by apply lookup_singleton_eq.
  - by apply lookup_singleton_eq.
Qed.

(** X9. When the forward of a claims, policy or investment route fails,
    exactly one record is logged at level [error], and its [error] field is
    the message of the failure; when the forward of a chaos route fails,
    nothing is logged at level [error]. *)
Theorem failed_forward_logged (E : Env) (r : Route) (req : Request) (start now : Z)
    (w : World) (cfg : AxiosConfig) (err : AxiosError) :
  routeConfig E r req = Some cfg →
  settle (backend E cfg) = inr err →
  ∃ news,
    events (serve E r req start now w).2 = events w ++ news
    ∧ if isChaos r then logsAt "error" news = []
      else ∃ record, logsAt "error" news = [record]
                     ∧ record !! "level" = Some (JStr "error")
                     ∧ record !! "error" = Some (JStr (message err)).
Proof.
  intros Hcfg Herr.
  destruct (serve_trace E r req start now w) as (news & Hev & Hs & _).
  exists news. split; [exact Hev|].
  unfold traceSummary, requestSummary in Hs. rewrite Hcfg, Herr in Hs.
  injection Hs as _ _ _ _ ->.
  pose proof (errorLogs_content E r err) as Hlogs.
  destruct (isChaos r); [exact Hlogs|].
  destruct Hlogs as [->|Hlogs]; [discriminate Hcfg|exact Hlogs].
Qed.

Lemma failed_forward_logged_witness :
  let E := Sample.env None None Sample.refused in
  ∃ news,
    events (serve E (GetInvestments "C42") (Sample.getReq "/api/investments/C42")
              1000 1042 Sample.world).2 = events Sample.world ++ news
    ∧ ∃ record, logsAt "error" news = [record]
                ∧ record !! "level" = Some (JStr "error")
                ∧ record !! "error"
                  = Some (JStr "connect ECONNREFUSED 127.0.0.1:8080").
Proof.
  apply (failed_forward_logged (Sample.env None None Sample.refused) (GetInvestments "C42")
           (Sample.getReq "/api/investments/C42") 1000 1042 Sample.world
           (forwardConfig (Sample.env None None Sample.refused)
              "http://localhost:3002" "/investments/C42" "GET" JNull ∅)
           (mkError "connect ECONNREFUSED 127.0.0.1:8080" (Some "ECONNREFUSED") None));
    reflexivity.
Defined.

(** ** The trace format of the logger (X11) *)

(** X11. [traceContextFormat] changes a record only at [traceId], [spanId]
    and [traceFlags]: every other field keeps its value, no field is ever
    removed, and applying the format twice gives the same record as applying
    it once. *)
Theorem traceContextFormat_frame (active : option SpanContext) (info : Info) :
  traceContextFormat active (traceContextFormat active info)
  = traceContextFormat active info
  ∧ (∀ k, k ∉ ["traceId"; "spanId"; "traceFlags"] →
          traceContextFormat active info !! k = info !! k)
  ∧ (∀ k, traceContextFormat active info !! k = None → info !! k = None).
Proof.
  unfold traceContextFormat. destruct active as [ctx|]; [|done].
  split; [|split].
  - apply map_eq. intros k. rewrite !lookup_insert.
    repeat case_decide; done.
  - intros k Hk. rewrite !lookup_insert_ne; [done|..];
      intros <-; apply Hk; rewrite !elem_of_cons; auto.
  - intros k. rewrite !lookup_insert. repeat case_decide; done.
Qed.

Lemma traceContextFormat_frame_witness :
  let info : Info := {[ "message" := JStr "hello"; "traceId" := JStr "stale" ]} in
  let record := traceContextFormat (Some Sample.context) info in
  traceContextFormat (Some Sample.context) record = record
  ∧ record !! "message" = Some (JStr "hello").
Proof.
  cbv zeta.
  destruct (traceContextFormat_frame (Some Sample.context)
              {[ "message" := JStr "hello"; "traceId" := JStr "stale" ]})
    as (Hidem & Hkeep & _).
  split; [exact Hidem|].
  rewrite Hkeep; [reflexivity|].
  rewrite !elem_of_cons, elem_of_nil. intuition discriminate.
Defined.

(** ** The timeout of outbound calls (X12, X13) *)

Lemma radixDigit_pretty_N_char (d : N) :
  (d < 10)%N → radixDigit 10 (pretty_N_char d) = Some (Z.of_N d).
Proof.
  intros Hd.
  assert (d = 0 ∨ d = 1 ∨ d = 2 ∨ d = 3 ∨ d = 4 ∨ d = 5 ∨ d = 6 ∨ d = 7 ∨ d = 8 ∨ d = 9)%N
    as Hcases by lia.
  repeat (destruct Hcases as [->|Hcases]; [reflexivity|]). subst d. reflexivity.
Qed.

(** Reading back the digits [pretty_N_go] writes in front of [s]. *)
Lemma parseDigits_pretty_N_go (x : N) (s : string) (acc : option Z) :
  (0 < x)%N →
  ∃ k : Z, 0 ≤ k ∧
    parseDigits 10 (pretty_N_go x s) acc
    = parseDigits 10 s (Some (default 0 acc * 10 ^ k + Z.of_N x)).
Proof.
  revert s acc. induction (N.lt_wf_0 x) as [x _ IH]. intros s acc Hx.
  rewrite pretty_N_go_step by done.
  assert (Hmod : (x `mod` 10 < 10)%N) by (apply N.mod_lt; lia).
  pose proof (N.div_mod x 10 ltac:(lia)) as Hdm.
  destruct (decide (x `div` 10 = 0)%N) as [Hz|Hnz].
  - rewrite Hz, pretty_N_go_0. cbn [parseDigits].
    rewrite radixDigit_pretty_N_char by done. rewrite Hz in Hdm.
    exists 1. split; [lia|]. do 2 f_equal.
    clear Hz IH. generalize dependent (x `mod` 10)%N. intros; lia.
  - destruct (IH (x `div` 10)%N) with
      (s := String (pretty_N_char (x `mod` 10)) s) (acc := acc) as (k & Hk & ->).
    + apply N.div_lt; lia.
    + lia.
    + cbn [parseDigits]. rewrite radixDigit_pretty_N_char by done.
      exists (k + 1). split; [lia|]. do 2 f_equal. cbn [default from_option id].
      rewrite Z.pow_add_r by lia. lia.
Qed.

(** The decimal numeral of a positive number starts with a digit from 1
    to 9. *)
Lemma pretty_N_go_head (x : N) (s : string) :
  (0 < x)%N →
  ∃ d rest, (1 ≤ d < 10)%N ∧ pretty_N_go x s = String (pretty_N_char d) rest.
Proof.
  revert s. induction (N.lt_wf_0 x) as [x _ IH]. intros s Hx.
  rewrite pretty_N_go_step by done.
  destruct (decide (x `div` 10 = 0)%N) as [Hz|Hnz].
  - rewrite Hz, pretty_N_go_0. exists (x `mod` 10)%N, s. split; [|done].
    pose proof (N.div_mod x 10 ltac:(lia)) as Hdm. rewrite Hz in Hdm.
    assert ((x `mod` 10 < 10)%N) by (apply N.mod_lt; lia).
    clear Hz IH. generalize dependent (x `mod` 10)%N. intros; lia.
  - apply IH; [apply N.div_lt; lia | by apply N.neq_0_lt_0].
Qed.

Lemma parseDigits_stop (R : Z) (suffix : string) (acc : option Z) :
  (suffix = "" ∨ ∃ c rest, suffix = String c rest ∧ radixDigit R c = None) →
  parseDigits R suffix acc = acc.
Proof. intros [->|(c & rest & -> & Hc)]; cbn [parseDigits]; [done|by rewrite Hc]. Qed.

Lemma pretty_N_go_app (x : N) (s suffix : string) :
  pretty_N_go x s +:+ suffix = pretty_N_go x (s +:+ suffix).
Proof.
  revert s. induction (N.lt_wf_0 x) as [x _ IH]. intros s.
  destruct (decide (0 < x)%N) as [Hx|Hx].
  - rewrite (pretty_N_go_step x s), (pretty_N_go_step x (s +:+ suffix)) by done.
    rewrite IH by (apply N.div_lt; lia). done.
  - assert (x = 0%N) as -> by lia. by rewrite !pretty_N_go_0.
Qed.

Ltac parse_head Hdigits :=
  cbn [pretty_N_char] in *; cbn [trimStart];
  repeat match goal with
         | |- context [isWhiteSpace ?c] =>
             let b := eval vm_compute in (isWhiteSpace c) in
             change (isWhiteSpace c) with b
         end;
  cbv iota; rewrite Hdigits; split; reflexivity.

Lemma parseInt_pretty_positive (p : positive) (suffix : string) :
  (suffix = "" ∨ ∃ c rest, suffix = String c rest ∧ radixDigit 10 c = None) →
  parseInt (pretty (Z.pos p) +:+ suffix) = Some (Z.pos p)
  ∧ parseInt ("-" +:+ pretty (Z.pos p) +:+ suffix) = Some (Z.neg p).
Proof.
  intros Hsuffix.
  change (pretty (Z.pos p)) with (pretty_N_go (N.pos p) "").
  rewrite pretty_N_go_app. change ("" +:+ suffix) with suffix.
  change ("-" +:+ pretty_N_go (N.pos p) suffix)
    with (String "-" (pretty_N_go (N.pos p) suffix)).
  destruct (pretty_N_go_head (N.pos p) suffix) as (d & rest & Hd & Hhead); [lia|].
  destruct (parseDigits_pretty_N_go (N.pos p) suffix None) as (k & Hk & Hdigits); [lia|].
  rewrite (parseDigits_stop 10 suffix _ Hsuffix) in Hdigits.
  cbn [default from_option id] in Hdigits.
  rewrite Z.mul_0_l, Z.add_0_l in Hdigits.
  change (Z.of_N (N.pos p)) with (Z.pos p) in Hdigits.
  rewrite Hhead in Hdigits |- *.
  assert (d = 1 ∨ d = 2 ∨ d = 3 ∨ d = 4 ∨ d = 5 ∨ d = 6 ∨ d = 7 ∨ d = 8 ∨ d = 9)%N
    as Hcases by lia.
  unfold parseInt.
  repeat (destruct Hcases as [->|Hcases]; [parse_head Hdigits|]).
  subst d. parse_head Hdigits.
Qed.

(** X12. Whatever [REQUEST_TIMEOUT_MS] holds, the outbound call of
    [forwardRequest] never carries the timeout 0, the value with which axios
    waits without limit. *)
Theorem outbound_timeout_never_zero (E : Env) (serviceUrl path method : string)
    (payload : json) (headers : option loc) (w : World) :
  ∃ news cfg,
    events (forwardRequest E serviceUrl path method payload headers w).2
    = events w ++ news
    ∧ axiosCalls news = [cfg]
    ∧ cfg_timeout cfg ≠ 0.
Proof.
  eexists _, _. split; [apply forwardRequest_events|].
  split; [unfold forwardEvents; destruct (settle _); reflexivity|].
  cbn [cfg_timeout forwardConfig]. unfold requestTimeout, numOr.
  destruct (parseInt _) as [v|]; [|done].
  destruct (Z.eqb_spec v 0); done.
Qed.

(** X13. When [REQUEST_TIMEOUT_MS] starts with the decimal numeral of a
    non-zero integer [n] (within the range a Number holds exactly), followed
    by nothing or by text that begins with a character other than a decimal
    digit, outbound calls use the timeout [n]: trailing text such as a unit is
    ignored, and a negative number is passed on as it is. *)
Theorem requestTimeout_configured (E : Env) (n : Z) (suffix : string) :
  n ≠ 0 →
  Z.abs n ≤ 2 ^ 53 →
  (suffix = "" ∨ ∃ c rest, suffix = String c rest ∧ radixDigit 10 c = None) →
  REQUEST_TIMEOUT_MS E = Some (numToString n +:+ suffix) →
  requestTimeout E = n
  ∧ ∀ serviceUrl path method payload h,
      cfg_timeout (forwardConfig E serviceUrl path method payload h) = n.
Proof.
  intros Hn _ Hsuffix Henv.
  assert (requestTimeout E = n) as Ht; [|by split].
  unfold requestTimeout. rewrite Henv. cbn [envToString].
  unfold numToString.
  destruct n as [|p|p]; [done|..].
  - rewrite (proj1 (parseInt_pretty_positive p suffix Hsuffix)). reflexivity.
  - change (pretty (Z.neg p)) with ("-" +:+ pretty (Z.pos p)).
    change (("-" +:+ pretty (Z.pos p)) +:+ suffix)
      with ("-" +:+ pretty (Z.pos p) +:+ suffix).
    rewrite (proj2 (parseInt_pretty_positive p suffix Hsuffix)). reflexivity.
Qed.

Lemma requestTimeout_configured_witness :
  requestTimeout (Sample.env (Some "2500ms") None Sample.refused) = 2500
  ∧ requestTimeout (Sample.env (Some "1e3") None Sample.refused) = 1.
Proof.
  split.
  - apply (requestTimeout_configured (Sample.env (Some "2500ms") None Sample.refused)
             2500 "ms"); [lia|cbn; lia| |reflexivity].
    right. exists "m"%char, "s". split; reflexivity.
  - apply (requestTimeout_configured (Sample.env (Some "1e3") None Sample.refused)
             1 "e3"); [lia|cbn; lia| |reflexivity].
    right. exists "e"%char, "3". split; reflexivity.
Defined.
